(** * The momentary calculator: lifecycle and operations

    A shallow embedding of [examples/momentary-calculator/calculator.ts]
    (with [types.ts]) and the properties of its lifecycle
    (manifest, execute, dissolve, timed auto-dissolution) and of its four
    arithmetic operations.

    JavaScript numbers are IEEE-754 binary64 values; they are embedded as
    Rocq's primitive [float], whose operations are exactly those of
    binary64 with a single NaN.  Objects that the program shares and
    mutates (the registry [sensitiveData], the caller's intent) are cells
    of an explicit store; methods are computations in a state and
    exception monad. *)

From Stdlib Require Import Floats ZArith String List Bool Lia Permutation.
Import ListNotations.

Set Warnings "-inexact-float".
Set Implicit Arguments.

(* ===================================================================== *)
(** * The host: values, exceptions, and the built-ins the program calls   *)
(* ===================================================================== *)

Module Host.

(** The JavaScript values that can flow through the calculator. *)
Inductive js_value : Type :=
| VUndefined
| VNull
| VBoolean (b : bool)
| VNumber (x : float)
| VString (s : string)
| VArray (xs : list float)
| VObject.                      (* a fresh plain object without own keys *)

(** What a [throw] (or a rejected promise) carries.  [Error] is
    [new Error(message)]; [TypeError] is raised by the host itself and is
    an instance of [Error] too; anything else is a thrown non-error. *)
Inductive js_exn : Type :=
| Error (message : string)
| TypeError (message : string)
| ThrownValue (v : js_value).

Definition instanceof_Error (e : js_exn) : bool :=
  match e with
  | Error _ | TypeError _ => true
  | ThrownValue _ => false
  end.

Definition message_of (e : js_exn) : string :=
  match e with
  | Error m | TypeError m => m
  | ThrownValue _ => EmptyString
  end.

(** Completion of a call: a normal return or an abrupt one. *)
Inductive outcome (A : Type) : Type :=
| Returned (a : A)
| Thrown (e : js_exn).
Arguments Returned {A} a.
Arguments Thrown {A} e.

(** ** The state and exception monad

    A method body is a function from the store to a completion and the
    store it leaves behind.  A [throw] keeps every write made before
    it: nothing is rolled back. *)
Section Monad.
Variable S : Type.

Definition JS (A : Type) : Type := S -> outcome A * S.

Definition ret {A} (a : A) : JS A := fun s => (Returned a, s).

Definition throw {A} (e : js_exn) : JS A := fun s => (Thrown e, s).

Definition bind {A B} (m : JS A) (k : A -> JS B) : JS B :=
  fun s =>
    match m s with
    | (Returned a, s') => k a s'
    | (Thrown e, s') => (Thrown e, s')
    end.

(** [try { m } catch (error) { h error }] *)
Definition try_catch {A} (m : JS A) (h : js_exn -> JS A) : JS A :=
  fun s =>
    match m s with
    | (Returned a, s') => (Returned a, s')
    | (Thrown e, s') => h e s'
    end.

Definition get : JS S := fun s => (Returned s, s).
Definition modify (f : S -> S) : JS unit := fun s => (Returned tt, f s).

(** Lifting of a pure call that may throw. *)
Definition lift {A} (o : outcome A) : JS A := fun s => (o, s).
End Monad.

Arguments ret {S A} a.
Arguments throw {S A} e.
Arguments bind {S A B} m k.
Arguments try_catch {S A} m h.
Arguments get {S}.
Arguments modify {S} f.
Arguments lift {S A} o.

(** ** [Array.prototype.reduce]

    The callback receives the accumulator, the current element and its
    index, and may throw.  Without an initial value the first element
    seeds the accumulator and iteration starts at index 1; on an empty
    array that form throws a [TypeError]. *)
Fixpoint reduce_from (cb : float -> float -> nat -> outcome float)
         (acc : float) (index : nat) (xs : list float) : outcome float :=
  match xs with
  | [] => Returned acc
  | value :: rest =>
      match cb acc value index with
      | Returned acc' => reduce_from cb acc' (S index) rest
      | Thrown e => Thrown e
      end
  end.

Definition Array_reduce_init cb (initial : float) (xs : list float) : outcome float :=
  reduce_from cb initial 0 xs.

Definition Array_reduce cb (xs : list float) : outcome float :=
  match xs with
  | [] => Thrown (TypeError "Reduce of empty array with no initial value")
  | first :: rest => reduce_from cb first 1 rest
  end.

(** ** [Math.round]

    [number_of_Z n] is the binary64 value nearest to the integer [n]
    (exactly [n] whenever [|n| <= 2^53]). *)
Definition number_of_Z (n : Z) : float :=
  SF2Prim (binary_normalize prec emax n 0 false).

(** Rounding of a binary64 value to an integral one.  NaN, the
    infinities and the values that are integral already are returned as
    they are.  Any other finite [x] is [num / den] exactly, with [num]
    a signed integer and [den] a power of two; [nearest num den] picks
    the integer, and a result of zero keeps the sign of [x]. *)
Definition round_to_integer (nearest : Z -> Z -> Z) (x : float) : float :=
  match Prim2SF x with
  | S754_finite s m e =>
      if (0 <=? e)%Z then x
      else
        let n := nearest (if s then Z.neg m else Z.pos m) (2 ^ (- e))%Z in
        if (n =? 0)%Z then (if s then (-0)%float else 0%float)
        else number_of_Z n
  | _ => x
  end.

(** The integer nearest to [num / den], a tie going to the one closer
    to +infinity: [floor (num / den + 1/2)]. *)
Definition nearest_ties_up (num den : Z) : Z :=
  ((2 * num + den) / (2 * den))%Z.

(** [Math.round(x)]: "the Number value that is closest to x and is
    integral; if two integral Numbers are equally close to x, the
    result is the Number value that is closer to +infinity". *)
Definition Math_round (x : float) : float :=
  round_to_integer nearest_ties_up x.

(** ** [Math.pow]

    ECMAScript leaves [Math.pow] implementation-approximated.  Where the
    power of ten is a binary64 value, up to [10^22], engines return it.
    Beyond, an engine need not return the nearest double, and engines
    do not agree with one another, so what the engine returns there is
    a parameter of the development. *)
Class Engine : Type := {
  Math_pow_inexact : N -> float     (* [Math.pow(10, p)] for [p > 22] *)
}.

(** [Math.pow(10, p)] at a non-negative integer [p]. *)
Definition Math_pow10 {engine : Engine} (p : N) : float :=
  if (p <=? 22)%N then number_of_Z (10 ^ Z.of_N p) else Math_pow_inexact p.

(** An engine whose [Math.pow] is correctly rounded, for the examples. *)
Definition nearest_engine : Engine :=
  {| Math_pow_inexact := fun p => number_of_Z (10 ^ Z.of_N p) |}.

(** An engine whose [Math.pow(10, 26)] is [9.999999999999999e25], the
    double next below the one nearest to [10^26]. *)
Definition engine_below_at_26 : Engine :=
  {| Math_pow_inexact := fun p =>
       if (p =? 26)%N then 9.999999999999999e25%float
       else number_of_Z (10 ^ Z.of_N p) |}.

(** ** [Object.prototype]

    An object literal inherits these members, and a property read such
    as [operations[name]] finds them when [name] is not an own key. *)
Inductive proto_member : Type :=
| P_constructor
| P_defineGetter
| P_defineSetter
| P_hasOwnProperty
| P_lookupGetter
| P_lookupSetter
| P_isPrototypeOf
| P_propertyIsEnumerable
| P_toString
| P_valueOf
| P_proto
| P_toLocaleString.

Definition Object_prototype : list (string * proto_member) :=
  [ ("constructor", P_constructor);
    ("__defineGetter__", P_defineGetter);
    ("__defineSetter__", P_defineSetter);
    ("hasOwnProperty", P_hasOwnProperty);
    ("__lookupGetter__", P_lookupGetter);
    ("__lookupSetter__", P_lookupSetter);
    ("isPrototypeOf", P_isPrototypeOf);
    ("propertyIsEnumerable", P_propertyIsEnumerable);
    ("toString", P_toString);
    ("valueOf", P_valueOf);
    ("__proto__", P_proto);
    ("toLocaleString", P_toLocaleString) ]%string.

Definition cannot_convert : string :=
  "Cannot convert undefined or null to object".

(** The call [member(operands, preferences)] made as a plain function
    call, so with [this] undefined.  [Object(v)] returns an object [v]
    itself and a new object for null; [toString] answers for the
    undefined receiver; [isPrototypeOf] answers [false] for an argument
    that is not an object; [__proto__] reads as the prototype object,
    which is not callable; every other member converts its receiver to
    an object and throws. *)
Definition call_proto_member (m : proto_member) (operands : option (list float))
  : outcome js_value :=
  match m with
  | P_constructor =>
      Returned (match operands with Some xs => VArray xs | None => VObject end)
  | P_toString => Returned (VString "[object Undefined]")
  | P_isPrototypeOf =>
      match operands with
      | Some _ => Thrown (TypeError cannot_convert)
      | None => Returned (VBoolean false)
      end
  | P_proto => Thrown (TypeError "operation is not a function")
  | _ => Thrown (TypeError cannot_convert)
  end.

(** Lookup of a key in an association list of own properties. *)
Fixpoint assoc {A} (key : string) (props : list (string * A)) : option A :=
  match props with
  | [] => None
  | (k, v) :: rest => if String.eqb key k then Some v else assoc key rest
  end.

End Host.

Import Host.

Notation "x <- m ;; k" := (bind m (fun x => k))
  (at level 61, m at next level, right associativity).
Notation "m ;;; k" := (bind m (fun _ => k))
  (at level 61, right associativity).

(* ===================================================================== *)
(** * types.ts                                                            *)
(* ===================================================================== *)

Inductive RoundingMode : Type := floor | ceil | round.

(** [precision] is a JavaScript number in the source; the model carries
    the non-negative integers, the values the preference store holds. *)
Record CalculatorPreferences : Type := {
  precision : option N;
  roundingMode : option RoundingMode
}.

Record CalculatorIntent : Type := {
  operation : string;
  operands : list float
}.

(** [value] and [error] are optional members, [None] when absent.  The
    [operation] member repeats [this.intent.operation], a slot of a store
    object, hence nullable in the model. *)
Record CalculationResult : Type := {
  value : option js_value;
  error : option string;
  result_operation : option string;
  completedAt : Z
}.

Record ManifestOptions : Type := {
  option_maxLifetime : option Z
}.

(** The answer of [userState.read<CalculatorPreferences>(path)] once its
    promise settles: a stored value, [undefined] ([Returned None]), or a
    rejection. *)
Definition read_outcome : Type := outcome (option CalculatorPreferences).

Record UserOwnedState : Type := {
  read : string -> read_outcome
}.

Definition CalculationFunction : Type :=
  list float -> CalculatorPreferences -> outcome float.

(* ===================================================================== *)
(** * calculator.ts: the operation registry                               *)
(* ===================================================================== *)

Section Calculator.

(** The engine the program runs on. *)
Context {engine : Engine}.

Definition DEFAULT_MAX_LIFETIME : Z := 30000.

(** The wrapper forwards its two arguments; the marker properties it sets
    on the function object are not read anywhere. *)
Definition createMomentaryFunction (fn : CalculationFunction) : CalculationFunction :=
  fun input context => fn input context.

Definition performAddition : CalculationFunction :=
  createMomentaryFunction (fun operands _preferences =>
    Array_reduce_init (fun sum value _ => Returned (sum + value)%float) 0%float operands).

Definition performSubtraction : CalculationFunction :=
  createMomentaryFunction (fun operands _preferences =>
    Array_reduce (fun diff value index =>
      Returned (if Nat.eqb index 0 then value else (diff - value)%float)) operands).

Definition performMultiplication : CalculationFunction :=
  createMomentaryFunction (fun operands _preferences =>
    Array_reduce_init (fun product value _ => Returned (product * value)%float) 1%float operands).

Definition division_step (quotient value : float) (index : nat) : outcome float :=
  if Nat.eqb index 0 then Returned value
  else if (value =? 0)%float then Thrown (Error "Division by zero")
  else Returned (quotient / value)%float.

Definition performDivision : CalculationFunction :=
  createMomentaryFunction (fun operands preferences =>
    match Array_reduce division_step operands with
    | Thrown e => Thrown e
    | Returned result =>
        Returned
          match precision preferences with
          | Some p => (Math_round (result * Math_pow10 p) / Math_pow10 p)%float
          | None => result
          end
    end).

(** The own properties of the [operations] object literal. *)
Definition operations : list (string * CalculationFunction) :=
  [ ("add", performAddition);
    ("subtract", performSubtraction);
    ("multiply", performMultiplication);
    ("divide", performDivision) ]%string.

(** What the property read [operations[key]] evaluates to: an own entry,
    a member inherited from [Object.prototype], or [undefined]. *)
Inductive registry_entry : Type :=
| OwnEntry (f : CalculationFunction)
| InheritedEntry (m : proto_member)
| NoEntry.

Definition operations_get (key : string) : registry_entry :=
  match assoc key operations with
  | Some f => OwnEntry f
  | None =>
      match assoc key Object_prototype with
      | Some m => InheritedEntry m
      | None => NoEntry
      end
  end.

(** The call [operation(this.intent.operands, preferences)] for a truthy
    [operation].  Reading [reduce] off a null first argument throws. *)
Definition call_entry (entry : registry_entry) (args : option (list float))
           (preferences : CalculatorPreferences) : outcome js_value :=
  match entry with
  | OwnEntry f =>
      match args with
      | Some xs =>
          match f xs preferences with
          | Returned x => Returned (VNumber x)
          | Thrown e => Thrown e
          end
      | None => Thrown (TypeError "Cannot read properties of null (reading 'reduce')")
      end
  | InheritedEntry m => call_proto_member m args
  | NoEntry => Thrown (TypeError "operation is not a function")
  end.

(* ===================================================================== *)
(** * calculator.ts: the instance and its store                           *)
(* ===================================================================== *)

(** The registry object [{operands, result, userPreferences}]. *)
Record SensitiveData : Type := {
  sd_operands : option (list float);
  sd_result : option js_value;
  sd_userPreferences : option CalculatorPreferences
}.

(** The caller's intent object as it sits in the store.  One cell stands
    for the object that the caller, [this.intent] and
    [this.ephemeralState.data] all refer to.  Its slots are nullable
    because the cleanup sweep assigns null to whatever it is handed. *)
Record IntentObject : Type := {
  io_operation : option string;
  io_operands : option (list float);
  io_frozen : bool
}.

(** [EphemeralState<CalculatorIntent>] without its [data] member, which
    is the intent cell. *)
Record EphemeralState : Type := {
  expiresAt : Z;
  taskId : string
}.

(** One instance of [MomentaryCalculatorImpl] together with the part of
    the host it touches.  [dissolutionTimer] is the time at which the
    pending timeout is due, [None] once it has been cleared or has fired.
    [sensitiveDataRef] is the identity of the object [this.sensitiveData]
    currently points to.  [gc_calls] and [read_log] record the calls made
    to [global.gc] and to the broker's [read]. *)
Record World : Type := {
  clock : Z;
  gc_exposed : bool;
  gc_calls : nat;
  read_log : list string;
  allocations : nat;
  id : string;
  purpose : string;
  manifestedAt : Z;
  maxLifetime : Z;
  active : bool;
  dissolutionTimer : option Z;
  ephemeralState : EphemeralState;
  sensitiveData : SensitiveData;
  sensitiveDataRef : nat;
  intent : IntentObject
}.

Definition set_clock (t : Z) (w : World) : World :=
  {| clock := t; gc_exposed := gc_exposed w; gc_calls := gc_calls w;
     read_log := read_log w; allocations := allocations w; id := id w;
     purpose := purpose w; manifestedAt := manifestedAt w;
     maxLifetime := maxLifetime w; active := active w;
     dissolutionTimer := dissolutionTimer w; ephemeralState := ephemeralState w;
     sensitiveData := sensitiveData w; sensitiveDataRef := sensitiveDataRef w;
     intent := intent w |}.

Definition set_gc_calls (n : nat) (w : World) : World :=
  {| clock := clock w; gc_exposed := gc_exposed w; gc_calls := n;
     read_log := read_log w; allocations := allocations w; id := id w;
     purpose := purpose w; manifestedAt := manifestedAt w;
     maxLifetime := maxLifetime w; active := active w;
     dissolutionTimer := dissolutionTimer w; ephemeralState := ephemeralState w;
     sensitiveData := sensitiveData w; sensitiveDataRef := sensitiveDataRef w;
     intent := intent w |}.

Definition set_read_log (l : list string) (w : World) : World :=
  {| clock := clock w; gc_exposed := gc_exposed w; gc_calls := gc_calls w;
     read_log := l; allocations := allocations w; id := id w;
     purpose := purpose w; manifestedAt := manifestedAt w;
     maxLifetime := maxLifetime w; active := active w;
     dissolutionTimer := dissolutionTimer w; ephemeralState := ephemeralState w;
     sensitiveData := sensitiveData w; sensitiveDataRef := sensitiveDataRef w;
     intent := intent w |}.

Definition set_active (b : bool) (w : World) : World :=
  {| clock := clock w; gc_exposed := gc_exposed w; gc_calls := gc_calls w;
     read_log := read_log w; allocations := allocations w; id := id w;
     purpose := purpose w; manifestedAt := manifestedAt w;
     maxLifetime := maxLifetime w; active := b;
     dissolutionTimer := dissolutionTimer w; ephemeralState := ephemeralState w;
     sensitiveData := sensitiveData w; sensitiveDataRef := sensitiveDataRef w;
     intent := intent w |}.

Definition set_dissolutionTimer (t : option Z) (w : World) : World :=
  {| clock := clock w; gc_exposed := gc_exposed w; gc_calls := gc_calls w;
     read_log := read_log w; allocations := allocations w; id := id w;
     purpose := purpose w; manifestedAt := manifestedAt w;
     maxLifetime := maxLifetime w; active := active w;
     dissolutionTimer := t; ephemeralState := ephemeralState w;
     sensitiveData := sensitiveData w; sensitiveDataRef := sensitiveDataRef w;
     intent := intent w |}.

(** A write into a slot of the registry object: same object, new contents. *)
Definition set_sensitiveData (d : SensitiveData) (w : World) : World :=
  {| clock := clock w; gc_exposed := gc_exposed w; gc_calls := gc_calls w;
     read_log := read_log w; allocations := allocations w; id := id w;
     purpose := purpose w; manifestedAt := manifestedAt w;
     maxLifetime := maxLifetime w; active := active w;
     dissolutionTimer := dissolutionTimer w; ephemeralState := ephemeralState w;
     sensitiveData := d; sensitiveDataRef := sensitiveDataRef w;
     intent := intent w |}.

(** The assignment [this.sensitiveData = { ... }]: a new object is
    allocated and the field is pointed at it. *)
Definition assign_sensitiveData (d : SensitiveData) (w : World) : World :=
  {| clock := clock w; gc_exposed := gc_exposed w; gc_calls := gc_calls w;
     read_log := read_log w; allocations := S (allocations w); id := id w;
     purpose := purpose w; manifestedAt := manifestedAt w;
     maxLifetime := maxLifetime w; active := active w;
     dissolutionTimer := dissolutionTimer w; ephemeralState := ephemeralState w;
     sensitiveData := d; sensitiveDataRef := allocations w;
     intent := intent w |}.

Definition set_intent (o : IntentObject) (w : World) : World :=
  {| clock := clock w; gc_exposed := gc_exposed w; gc_calls := gc_calls w;
     read_log := read_log w; allocations := allocations w; id := id w;
     purpose := purpose w; manifestedAt := manifestedAt w;
     maxLifetime := maxLifetime w; active := active w;
     dissolutionTimer := dissolutionTimer w; ephemeralState := ephemeralState w;
     sensitiveData := sensitiveData w; sensitiveDataRef := sensitiveDataRef w;
     intent := o |}.

Definition all_null : SensitiveData :=
  {| sd_operands := None; sd_result := None; sd_userPreferences := None |}.

Definition with_userPreferences (p : CalculatorPreferences) (d : SensitiveData) : SensitiveData :=
  {| sd_operands := sd_operands d; sd_result := sd_result d;
     sd_userPreferences := Some p |}.

Definition with_result (v : js_value) (d : SensitiveData) : SensitiveData :=
  {| sd_operands := sd_operands d; sd_result := Some v;
     sd_userPreferences := sd_userPreferences d |}.

(** What the surroundings supply to a manifestation: the current time,
    the two identifiers drawn from [crypto.randomUUID()], and whether
    [global.gc] is defined. *)
Record Ambient : Type := {
  now : Z;
  uuid_first : string;
  uuid_second : string;
  gc : bool
}.

Definition Object_freeze (o : IntentObject) : IntentObject :=
  {| io_operation := io_operation o; io_operands := io_operands o;
     io_frozen := true |}.

(** The object the caller passes in. *)
Definition caller_object (i : CalculatorIntent) : IntentObject :=
  {| io_operation := Some (operation i); io_operands := Some (operands i);
     io_frozen := false |}.

(** [createEphemeralState(data, taskDuration)]: freezes [data] in place
    and returns the record around it. *)
Definition createEphemeralState (data : IntentObject) (taskDuration : Z)
           (date_now : Z) (uuid : string) : IntentObject * EphemeralState :=
  (Object_freeze data,
   {| expiresAt := date_now + taskDuration; taskId := uuid |}).

(** The longest delay the host's timers can hold: [2^31 - 1] ms, a
    little under 25 days. *)
Definition TIMEOUT_MAX : Z := 2147483647.

(** The delay a timer of Node is armed for when [delay] is asked: a
    delay below 1 or above [TIMEOUT_MAX] is replaced by 1. *)
Definition timer_delay (delay : Z) : Z :=
  if ((1 <=? delay) && (delay <=? TIMEOUT_MAX))%Z then delay else 1%Z.

(** [setTimeout(callback, delay)] called at time [t]: the callback is due
    at [t] plus the delay the timer is armed for.  Time is the logical
    clock of the model and the host's timer is taken to honour the delay
    it is armed for. *)
Definition setTimeout (delay : Z) (t : Z) : option Z := Some (t + timer_delay delay)%Z.

(** The conversion of a number to a signed 32-bit integer, which wraps
    around. *)
Definition ToInt32 (z : Z) : Z := ((z + 2 ^ 31) mod 2 ^ 32 - 2 ^ 31)%Z.

(** The delay a timer of a browser window is armed for: the delay asked
    is converted to a signed 32-bit integer, and a negative one is
    replaced by 0. *)
Definition window_timer_delay (delay : Z) : Z := Z.max 0 (ToInt32 delay).

(** [window.setTimeout(callback, delay)] called at time [t]. *)
Definition window_setTimeout (delay : Z) (t : Z) : option Z :=
  Some (t + window_timer_delay delay)%Z.

Definition clearTimeout (w : World) : World := set_dissolutionTimer None w.

(** The objects an instance can hand to the cleanup sweep. *)
Inductive reference : Type :=
| RefSensitiveData
| RefIntent.

(** [Object.keys(data).forEach(key => { data[key] = null })] on one
    object.  The registry object is an ordinary object.  The module is
    strict code, so the first assignment to a key of a frozen object
    throws. *)
Definition null_every_key (data : reference) : JS World unit :=
  match data with
  | RefSensitiveData => modify (set_sensitiveData all_null)
  | RefIntent =>
      w <- get ;;
      if io_frozen (intent w)
      then throw (TypeError
             "Cannot assign to read only property 'operation' of object '#<Object>'")
      else modify (set_intent {| io_operation := None; io_operands := None;
                                 io_frozen := false |})
  end.

Fixpoint forEach (f : reference -> JS World unit) (xs : list reference) : JS World unit :=
  match xs with
  | [] => ret tt
  | x :: rest => f x ;;; forEach f rest
  end.

(** [secureCleanup]: every element of the list is an object here, so the
    [typeof] guard of the source passes for each. *)
Definition secureCleanup (sensitiveData : list reference) : JS World unit :=
  forEach null_every_key sensitiveData ;;;
  w <- get ;;
  if gc_exposed w then modify (set_gc_calls (S (gc_calls w))) else ret tt.

(** [manifestCalculator(intent, options)] with the constructor of
    [MomentaryCalculatorImpl] inlined. *)
Definition manifestCalculator (env : Ambient) (i : CalculatorIntent)
           (options : option ManifestOptions) : World :=
  let lifetime :=
    match options with
    | Some o =>
        match option_maxLifetime o with
        | Some m => if (m =? 0)%Z then DEFAULT_MAX_LIFETIME else m
        | None => DEFAULT_MAX_LIFETIME
        end
    | None => DEFAULT_MAX_LIFETIME
    end in
  let '(frozen_intent, ephemeral) :=
    createEphemeralState (caller_object i) lifetime (now env) (uuid_second env) in
  {| clock := now env;
     gc_exposed := gc env;
     gc_calls := 0;
     read_log := [];
     allocations := 1;
     id := uuid_first env;
     purpose := operation i;
     manifestedAt := now env;
     maxLifetime := lifetime;
     active := true;
     dissolutionTimer := setTimeout lifetime (now env);
     ephemeralState := ephemeral;
     sensitiveData := {| sd_operands := Some (operands i); sd_result := None;
                         sd_userPreferences := None |};
     sensitiveDataRef := 0;
     intent := frozen_intent |}.

Definition preferences_path : string := "/preferences/calculator".

Definition no_preferences : CalculatorPreferences :=
  {| precision := None; roundingMode := None |}.

(** JavaScript's conversion of a nullable string slot to a property key
    or to text in a template. *)
Definition to_text (s : option string) : string :=
  match s with
  | Some t => t
  | None => "null"
  end.

(** [getUserPreferences] from the point where the broker has answered:
    [preferences || {}]. *)
Definition getUserPreferences (response : read_outcome) : JS World CalculatorPreferences :=
  preferences <- lift response ;;
  ret match preferences with
      | Some p => p
      | None => no_preferences
      end.

(** The body of [execute] after its [await]: everything inside the
    [try] block once the read has settled, and the [catch]. *)
Definition execute_resume (response : read_outcome) : JS World CalculationResult :=
  try_catch
    (preferences <- getUserPreferences response ;;
     modify (fun w => set_sensitiveData (with_userPreferences preferences (sensitiveData w)) w) ;;;
     w <- get ;;
     let name := io_operation (intent w) in
     match operations_get (to_text name) with
     | NoEntry =>
         ret {| value := None;
                error := Some ("Unknown operation: " ++ to_text name)%string;
                result_operation := name;
                completedAt := clock w |}
     | entry =>
         v <- lift (call_entry entry (io_operands (intent w)) preferences) ;;
         modify (fun w => set_sensitiveData (with_result v (sensitiveData w)) w) ;;;
         ret {| value := Some v;
                error := None;
                result_operation := name;
                completedAt := clock w |}
     end)
    (fun e =>
       w <- get ;;
       ret {| value := None;
              error := Some (if instanceof_Error e then message_of e
                             else "Unknown error"%string);
              result_operation := io_operation (intent w);
              completedAt := clock w |}).

(** The part of [execute] that runs before the [await]: the lifecycle
    guard, and the read issued to the broker. *)
Definition execute_begin : JS World unit :=
  w <- get ;;
  if negb (active w)
  then throw (Error "Calculator has been dissolved")
  else modify (fun w => set_read_log (read_log w ++ [preferences_path]) w).

(** An awaited call of [execute]: nothing else runs between the read and
    its continuation. *)
Definition execute (userState : UserOwnedState) : JS World CalculationResult :=
  execute_begin ;;;
  execute_resume (read userState preferences_path).

Definition dissolve : JS World unit :=
  modify (set_active false) ;;;
  modify clearTimeout ;;;
  secureCleanup [RefSensitiveData; RefIntent] ;;;
  modify (assign_sensitiveData all_null).

Definition isActive (w : World) : bool := active w.
Definition hasResidualData (_ : World) : bool := false.
Definition isAccessingUserState (_ : World) : bool := false.
Definition hasTimers (_ : World) : bool := false.
Definition getSensitiveData (w : World) : SensitiveData := sensitiveData w.

(** ** The timer and the passage of time *)

(** The callback given to [setTimeout]: [() => { this.dissolve(); }].
    The promise that [dissolve] returns is dropped. *)
Definition timer_callback (w : World) : World := snd (dissolve w).

(** [dt] milliseconds pass.  A pending timer that is due by then fires,
    once, and is no longer pending. *)
Definition elapse (dt : N) (w : World) : World :=
  let t := (clock w + Z.of_N dt)%Z in
  match dissolutionTimer w with
  | Some due =>
      if (due <=? t)%Z
      then set_clock t (timer_callback (set_dissolutionTimer None w))
      else set_clock t w
  | None => set_clock t w
  end.

(** ** Histories of an instance *)

Inductive call : Type :=
| Execute (userState : UserOwnedState)
| Dissolve
| Elapse (dt : N).

Definition step (w : World) (c : call) : World :=
  match c with
  | Execute userState => snd (execute userState w)
  | Dissolve => snd (dissolve w)
  | Elapse dt => elapse dt w
  end.

Definition run (cs : list call) (w : World) : World := fold_left step cs w.

(** The states an instance goes through. *)
Inductive reachable (env : Ambient) (i : CalculatorIntent)
          (options : option ManifestOptions) : World -> Prop :=
| reach_manifest : reachable env i options (manifestCalculator env i options)
| reach_step w c : reachable env i options w -> reachable env i options (step w c).

(* ===================================================================== *)
(** * Statements used in the properties below                             *)
(* ===================================================================== *)

(** The exception the sweep raises on the frozen intent. *)
Definition frozen_type_error : js_exn :=
  TypeError "Cannot assign to read only property 'operation' of object '#<Object>'".

(** A dissolved instance: inactive, no pending timer, every slot null. *)
Definition dissolved (w : World) : Prop :=
  active w = false /\ dissolutionTimer w = None /\ sensitiveData w = all_null.

(** What every state of an instance manifested as [w0] satisfies. *)
Record invariant (w0 w : World) : Prop := {
  inv_intent : intent w = intent w0;
  inv_frozen : io_frozen (intent w) = true;
  inv_dissolved : active w = false -> dissolved w;
  inv_timer : forall due, dissolutionTimer w = Some due ->
                          dissolutionTimer w0 = Some due;
  inv_manifestedAt : manifestedAt w = manifestedAt w0;
  inv_maxLifetime : maxLifetime w = maxLifetime w0
}.

(** Whether at least one of the three registry slots holds a value. *)
Definition has_non_null_slot (d : SensitiveData) : bool :=
  match sd_operands d, sd_result d, sd_userPreferences d with
  | None, None, None => false
  | _, _, _ => true
  end.

(** ** Concrete surroundings for the examples *)

Definition sample_env : Ambient :=
  {| now := 1000; uuid_first := "7d0c1a52"; uuid_second := "e41b9f03"; gc := true |}.

Definition sample_intent : CalculatorIntent :=
  {| operation := "add"; operands := [1%float; 2%float] |}.

(** A broker with nothing stored: every read answers [undefined]. *)
Definition empty_broker : UserOwnedState :=
  {| read := fun _ => Returned None |}.

(** A broker whose read rejects. *)
Definition failing_broker : UserOwnedState :=
  {| read := fun _ => Thrown (Error "broker offline") |}.

(** A broker holding [{precision: p}] at every path. *)
Definition broker_with_precision (p : N) : UserOwnedState :=
  {| read := fun _ => Returned (Some {| precision := Some p; roundingMode := None |}) |}.

(** ** Rounding as the specification words it

    The integer nearest to [num / den], a tie going to the one farther
    from zero: the sign of [num] times [floor (|num| / den + 1/2)]. *)
Definition nearest_ties_away (num den : Z) : Z :=
  (Z.sgn num * ((2 * Z.abs num + den) / (2 * den)))%Z.

Definition round_half_away_from_zero (x : float) : float :=
  round_to_integer nearest_ties_away x.

(** A quotient rounded to [p] decimal digits by a given rounding to
    integers, the way [performDivision] scales and unscales it. *)
Definition round_to_digits (rounding : float -> float) (q : float) (p : N) : float :=
  (rounding (q * Math_pow10 p) / Math_pow10 p)%float.

(** The quotient the specification describes for operands [first :: rest]
    that contain no zero divisor. *)
Definition divide_as_specified (first : float) (rest : list float)
           (preferences : CalculatorPreferences) : float :=
  let quotient := fold_left PrimFloat.div rest first in
  match precision preferences with
  | Some p => round_to_digits round_half_away_from_zero quotient p
  | None => quotient
  end.

Definition is_zero (x : float) : bool := (x =? 0)%float.

(* ===================================================================== *)
(** * calculator.ts: the compliance scanner                               *)
(* ===================================================================== *)

(** [haystack.includes(needle)]: [needle] occurs somewhere in [haystack]. *)
Fixpoint includes (needle haystack : string) : bool :=
  String.prefix needle haystack ||
  match haystack with
  | EmptyString => false
  | String _ rest => includes needle rest
  end.

(** [MomentaryCalculatorImpl.detectAntiPatterns()].  [codeString] is the
    text that [MomentaryCalculatorImpl.toString()] returns: the source of
    the class. *)
Definition detectAntiPatterns (codeString : string) : list string :=
  (if includes "localStorage" codeString || includes "sessionStorage" codeString
   then ["Uses browser storage (violates BYOS)"%string] else [])
  ++ (if includes "setInterval" codeString
      then ["Uses persistent timers (violates temporary manifestation)"%string]
      else [])
  ++ (if includes "analytics" codeString || includes "tracking" codeString
      then ["Includes tracking (violates privacy through ephemerality)"%string]
      else []).

Record ManifestoCompliance : Type := {
  isEphemeral : bool;
  respectsUserDataOwnership : bool;
  hasZeroAttentionArchitecture : bool;
  preventsContagion : bool;
  enablesCompleteDissolusion : bool;
  violations : list string
}.

(** [validateManifestoCompliance(calculatorClass)] for the class itself,
    given the text of the class. *)
Definition validateManifestoCompliance (codeString : string) : ManifestoCompliance :=
  let violations := [] ++ detectAntiPatterns codeString in
  {| isEphemeral := Nat.eqb (length violations) 0;
     respectsUserDataOwnership := negb (existsb (includes "BYOS") violations);
     hasZeroAttentionArchitecture := negb (existsb (includes "attention") violations);
     preventsContagion := true;
     enablesCompleteDissolusion := true;
     violations := violations |}.

(** The three conditions of [detectAntiPatterns] as the source file has
    them (lines 212, 216 and 220).  A class that is run as a class has
    them in its text, in this order. *)
Definition storage_condition : string :=
  "codeString.includes('localStorage') || codeString.includes('sessionStorage')".

Definition timer_condition : string :=
  "codeString.includes('setInterval')".

Definition tracking_condition : string :=
  "codeString.includes('analytics') || codeString.includes('tracking')".

(* ===================================================================== *)
(** * The brokers: test-utils.ts and the web demo's user-state.ts         *)
(* ===================================================================== *)

(** The [Map] behind a broker, as far as [get], [set] and [delete] go. *)
Fixpoint Map_set {V} (key : string) (v : V) (m : list (string * V)) : list (string * V) :=
  match m with
  | [] => [(key, v)]
  | (k, v') :: rest =>
      if String.eqb key k then (key, v) :: rest else (k, v') :: Map_set key v rest
  end.

Definition Map_delete {V} (key : string) (m : list (string * V)) : list (string * V) :=
  filter (fun entry => negb (String.eqb key (fst entry))) m.

(** The closure state of one broker.  Every access schedules one timer
    callback that gives its handle back; [releases] counts the callbacks
    scheduled and not yet run. *)
Record Broker (V : Type) : Type := {
  storage : list (string * V);
  handleCount : Z;
  releases : nat
}.

Definition new_broker (V : Type) : Broker V :=
  {| storage := []; handleCount := 0; releases := 0 |}.

(** The synchronous part of an access: count the handle, schedule its
    release. *)
Definition acquire {V} (m : list (string * V)) (b : Broker V) : Broker V :=
  {| storage := m; handleCount := handleCount b + 1; releases := S (releases b) |}.

Definition broker_read {V} (path : string) (b : Broker V) : option V * Broker V :=
  (assoc path (storage b), acquire (storage b) b).

(** [storage.set(path, Object.freeze(value))]: values are immutable in
    the model, so freezing changes nothing. *)
Definition broker_write {V} (path : string) (v : V) (b : Broker V) : Broker V :=
  acquire (Map_set path v (storage b)) b.

Definition broker_delete {V} (path : string) (b : Broker V) : Broker V :=
  acquire (Map_delete path (storage b)) b.

Definition activeHandles {V} (b : Broker V) : Z := handleCount b.

(** One scheduled release runs.  In test-utils.ts the callback is
    [handleCount--]; in the web demo it is
    [handleCount = Math.max(0, handleCount - 1)]. *)
Definition release_mock {V} (b : Broker V) : Broker V :=
  match releases b with
  | O => b
  | S n => {| storage := storage b; handleCount := handleCount b - 1; releases := n |}
  end.

Definition release_web {V} (b : Broker V) : Broker V :=
  match releases b with
  | O => b
  | S n => {| storage := storage b; handleCount := Z.max 0 (handleCount b - 1);
              releases := n |}
  end.

Inductive broker_event (V : Type) : Type :=
| BrokerRead (path : string)
| BrokerWrite (path : string) (v : V)
| BrokerDelete (path : string)
| BrokerTimer.
#[global] Arguments BrokerRead {V} path.
#[global] Arguments BrokerWrite {V} path v.
#[global] Arguments BrokerDelete {V} path.
#[global] Arguments BrokerTimer {V}.

Definition broker_step {V} (release : Broker V -> Broker V)
           (b : Broker V) (e : broker_event V) : Broker V :=
  match e with
  | BrokerRead path => snd (broker_read path b)
  | BrokerWrite path v => broker_write path v b
  | BrokerDelete path => broker_delete path b
  | BrokerTimer => release b
  end.

Definition broker_run {V} (release : Broker V -> Broker V)
           (es : list (broker_event V)) (b : Broker V) : Broker V :=
  fold_left (broker_step release) es b.

(** Whether an event writes or deletes the entry at [path]. *)
Definition touches {V} (path : string) (e : broker_event V) : bool :=
  match e with
  | BrokerWrite p _ | BrokerDelete p => String.eqb p path
  | _ => false
  end.

Definition is_access {V} (e : broker_event V) : bool :=
  match e with
  | BrokerTimer => false
  | _ => true
  end.

(** The handle count matches the release callbacks still to run. *)
Definition balanced {V} (b : Broker V) : Prop :=
  handleCount b = Z.of_nat (releases b).

(** What [execute] sees of a broker: the answers its [read] gives. *)
Definition as_UserOwnedState (b : Broker CalculatorPreferences) : UserOwnedState :=
  {| read := fun path => Returned (fst (broker_read path b)) |}.

(* ===================================================================== *)
(** * The web demo: dom-cleanup.ts                                        *)
(* ===================================================================== *)

(** Elements, event targets and listener functions are object
    identities.  The page keeps, for each attached element, its parent,
    and the event listeners registered on each target; a target holds a
    given listener for a given event type at most once. *)
Definition Element : Type := nat.

Record Registration : Type := {
  reg_target : nat;
  reg_type : string;
  reg_listener : nat
}.

Definition Registration_eqb (a b : Registration) : bool :=
  Nat.eqb (reg_target a) (reg_target b)
  && String.eqb (reg_type a) (reg_type b)
  && Nat.eqb (reg_listener a) (reg_listener b).

Record Page : Type := {
  parentNode : list (Element * Element);
  registered : list Registration
}.

(** The closure state of one tracker: the [Set] of elements, in insertion
    order and without repeats, and the array of listeners. *)
Record DOMCleanupTracker : Type := {
  elementsToClean : list Element;
  listenersToRemove : list Registration
}.

Definition createDOMCleanupTracker : DOMCleanupTracker :=
  {| elementsToClean := []; listenersToRemove := [] |}.

Definition has_parent (e : Element) (p : Page) : bool :=
  existsb (fun link => Nat.eqb e (fst link)) (parentNode p).

(** [element.parentNode.removeChild(element)] *)
Definition removeChild (e : Element) (p : Page) : Page :=
  {| parentNode := filter (fun link => negb (Nat.eqb e (fst link))) (parentNode p);
     registered := registered p |}.

Definition is_registered (r : Registration) (p : Page) : bool :=
  existsb (Registration_eqb r) (registered p).

(** [target.addEventListener(type, listener)] *)
Definition page_addEventListener (r : Registration) (p : Page) : Page :=
  {| parentNode := parentNode p;
     registered := if is_registered r p then registered p else registered p ++ [r] |}.

(** [target.removeEventListener(type, listener)] *)
Definition page_removeEventListener (r : Registration) (p : Page) : Page :=
  {| parentNode := parentNode p;
     registered := filter (fun r' => negb (Registration_eqb r r')) (registered p) |}.

(** [addElement(element)]: [elementsToClean.add(element)] *)
Definition addElement (e : Element) (t : DOMCleanupTracker) : DOMCleanupTracker :=
  {| elementsToClean :=
       if existsb (Nat.eqb e) (elementsToClean t)
       then elementsToClean t else elementsToClean t ++ [e];
     listenersToRemove := listenersToRemove t |}.

(** [addEventListener(target, type, listener)] of the tracker: registers
    on the page and remembers the registration. *)
Definition addEventListener (r : Registration) (s : Page * DOMCleanupTracker)
  : Page * DOMCleanupTracker :=
  (page_addEventListener r (fst s),
   {| elementsToClean := elementsToClean (snd s);
      listenersToRemove := listenersToRemove (snd s) ++ [r] |}).

(** [cleanup()] *)
Definition cleanup (s : Page * DOMCleanupTracker) : Page * DOMCleanupTracker :=
  let detached :=
    fold_left (fun p e => if has_parent e p then removeChild e p else p)
              (elementsToClean (snd s)) (fst s) in
  let silenced :=
    fold_left (fun p r => page_removeEventListener r p)
              (listenersToRemove (snd s)) detached in
  (silenced, {| elementsToClean := []; listenersToRemove := [] |}).

Definition tracked_element (e : Element) (t : DOMCleanupTracker) : bool :=
  existsb (fun e' => Nat.eqb e' e) (elementsToClean t).

Definition tracked_listener (r : Registration) (t : DOMCleanupTracker) : bool :=
  existsb (fun r' => Registration_eqb r' r) (listenersToRemove t).

(** Listeners registered one after the other through a tracker. *)
Definition track_all (rs : list Registration) (s : Page * DOMCleanupTracker)
  : Page * DOMCleanupTracker :=
  fold_left (fun s r => addEventListener r s) rs s.

(* ===================================================================== *)
(** * The web demo: calculator.ts                                         *)
(* ===================================================================== *)

(** An instance of [MomentaryWebCalculatorImpl] with the page.  The
    fields the web class shares with [MomentaryCalculatorImpl], its
    registry and the caller's intent are kept in a [World]; its [execute],
    [getUserPreferences], [secureCleanup] and operations have the same
    text as above and are the definitions above.  The web class has no
    [ephemeralState]: the slot is a placeholder that none of its methods
    reads. *)
Record WebWorld : Type := {
  core : World;
  page : Page;
  domCleanup : DOMCleanupTracker
}.

Definition on_core (f : World -> World) (w : WebWorld) : WebWorld :=
  {| core := f (core w); page := page w; domCleanup := domCleanup w |}.

(** A computation on the shared fields, run inside the web instance. *)
Definition in_core {A} (m : JS World A) : JS WebWorld A :=
  fun w => let '(o, c) := m (core w) in (o, on_core (fun _ => c) w).

Definition run_cleanup (w : WebWorld) : WebWorld :=
  let '(p, t) := cleanup (page w, domCleanup w) in
  {| core := core w; page := p; domCleanup := t |}.

Definition no_ephemeralState : EphemeralState :=
  {| expiresAt := 0; taskId := EmptyString |}.

(** [manifestCalculator(intent, domCleanup, options)] of the web demo,
    with the constructor inlined.  The intent is not frozen here, so the
    caller's object is as the caller left it: [frozen_by_caller]. *)
Definition web_manifestCalculator (env : Ambient) (i : CalculatorIntent)
           (frozen_by_caller : bool) (tracker : DOMCleanupTracker) (p : Page)
           (options : option ManifestOptions) : WebWorld :=
  let lifetime :=
    match options with
    | Some o =>
        match option_maxLifetime o with
        | Some m => if (m =? 0)%Z then DEFAULT_MAX_LIFETIME else m
        | None => DEFAULT_MAX_LIFETIME
        end
    | None => DEFAULT_MAX_LIFETIME
    end in
  {| core :=
       {| clock := now env;
          gc_exposed := gc env;
          gc_calls := 0;
          read_log := [];
          allocations := 1;
          id := uuid_first env;
          purpose := operation i;
          manifestedAt := now env;
          maxLifetime := lifetime;
          active := true;
          dissolutionTimer := window_setTimeout lifetime (now env);
          ephemeralState := no_ephemeralState;
          sensitiveData := {| sd_operands := Some (operands i); sd_result := None;
                              sd_userPreferences := None |};
          sensitiveDataRef := 0;
          intent := {| io_operation := Some (operation i);
                       io_operands := Some (operands i);
                       io_frozen := frozen_by_caller |} |};
     page := p;
     domCleanup := tracker |}.

Definition web_execute (userState : UserOwnedState) : JS WebWorld CalculationResult :=
  in_core (execute userState).

Definition web_dissolve : JS WebWorld unit :=
  w <- get ;;
  if negb (active (core w)) then ret tt
  else
    modify (on_core (set_active false)) ;;;
    modify (on_core clearTimeout) ;;;
    modify run_cleanup ;;;
    in_core (secureCleanup [RefSensitiveData; RefIntent]) ;;;
    modify (on_core (assign_sensitiveData all_null)).

Definition web_isActive (w : WebWorld) : bool := active (core w).
Definition web_hasTimers (w : WebWorld) : bool := active (core w).
Definition web_getSensitiveData (w : WebWorld) : SensitiveData := sensitiveData (core w).


(** The timer callback of the web class and the passage of time. *)
Definition web_timer_callback (w : WebWorld) : WebWorld := snd (web_dissolve w).

Definition web_elapse (dt : N) (w : WebWorld) : WebWorld :=
  let t := (clock (core w) + Z.of_N dt)%Z in
  match dissolutionTimer (core w) with
  | Some due =>
      if (due <=? t)%Z
      then on_core (set_clock t)
             (web_timer_callback (on_core (set_dissolutionTimer None) w))
      else on_core (set_clock t) w
  | None => on_core (set_clock t) w
  end.

Definition web_step (w : WebWorld) (c : call) : WebWorld :=
  match c with
  | Execute userState => snd (web_execute userState w)
  | Dissolve => snd (web_dissolve w)
  | Elapse dt => web_elapse dt w
  end.

Definition web_run (cs : list call) (w : WebWorld) : WebWorld := fold_left web_step cs w.

(** What stays as it was at manifestation [w0] of a web instance, and
    what follows the active flag, in every later state [w]. *)
Record web_steady (w0 w : WebWorld) : Prop := {
  ws_manifestedAt : manifestedAt (core w) = manifestedAt (core w0);
  ws_maxLifetime : maxLifetime (core w) = maxLifetime (core w0);
  ws_timer : dissolutionTimer (core w)
             = if active (core w) then dissolutionTimer (core w0) else None;
  ws_clock : (clock (core w0) <= clock (core w))%Z
}.

(* ===================================================================== *)
(** * Further statements about histories                                  *)
(* ===================================================================== *)

(** [preferences || {}] *)
Definition or_empty (preferences : option CalculatorPreferences) : CalculatorPreferences :=
  match preferences with
  | Some p => p
  | None => no_preferences
  end.

Definition is_Execute (c : call) : bool :=
  match c with
  | Execute _ => true
  | _ => false
  end.

(** What stays as it was at manifestation [w0], and what follows the
    active flag, in every later state [w]. *)
Record steady (w0 w : World) : Prop := {
  st_id : id w = id w0;
  st_purpose : purpose w = purpose w0;
  st_ephemeral : ephemeralState w = ephemeralState w0;
  st_gc_calls : gc_calls w = gc_calls w0;
  st_allocations : allocations w = allocations w0;
  st_ref : sensitiveDataRef w = sensitiveDataRef w0;
  st_timer : dissolutionTimer w = if active w then dissolutionTimer w0 else None;
  st_operands : sd_operands (sensitiveData w)
                = if active w then sd_operands (sensitiveData w0) else None;
  st_reads : Forall (fun path => path = preferences_path) (read_log w);
  st_clock : (clock w0 <= clock w)%Z
}.

(* ===================================================================== *)
(** * Properties of the lifecycle                                         *)
(* ===================================================================== *)

Ltac run_js :=
  cbv beta iota zeta delta
    [execute execute_begin execute_resume getUserPreferences dissolve
     secureCleanup null_every_key forEach clearTimeout timer_callback
     bind try_catch ret throw get modify lift];
  cbn [fst snd negb
       clock gc_exposed gc_calls read_log allocations id purpose manifestedAt
       maxLifetime active dissolutionTimer ephemeralState sensitiveData
       sensitiveDataRef intent set_clock set_gc_calls set_read_log set_active
       set_dissolutionTimer set_sensitiveData assign_sensitiveData set_intent].

(** The two ways through [dissolve]: the sweep throws on a frozen intent,
    and runs to the end otherwise, with or without the collector hint. *)
Ltac dissolve_cases w :=
  run_js; destruct (io_frozen (intent w)); run_js;
  [reflexivity | destruct (gc_exposed w); reflexivity].

Section Dissolve.

(** On a frozen intent, [dissolve] rejects after it has cleared the
    flag, the timer and the three slots, and before the hint and the
    reassignment. *)
Lemma dissolve_frozen (w : World) :
  io_frozen (intent w) = true ->
  dissolve w =
    (Thrown frozen_type_error,
     set_sensitiveData all_null (set_dissolutionTimer None (set_active false w))).
Proof.
  intros Hfrozen. run_js. rewrite Hfrozen. reflexivity.
Qed.

(** On an intent that is not frozen the sweep goes through. *)
Lemma dissolve_unfrozen (w : World) :
  io_frozen (intent w) = false ->
  fst (dissolve w) = Returned tt /\
  intent (snd (dissolve w)) =
    {| io_operation := None; io_operands := None; io_frozen := false |} /\
  sensitiveDataRef (snd (dissolve w)) = allocations w.
Proof.
  intros Hfrozen. run_js. rewrite Hfrozen. run_js.
  destruct (gc_exposed w); repeat split.
Qed.

Lemma dissolve_registry (w : World) :
  sensitiveData (snd (dissolve w)) = all_null.
Proof. dissolve_cases w. Qed.

Lemma dissolve_active (w : World) : active (snd (dissolve w)) = false.
Proof. dissolve_cases w. Qed.

Lemma dissolve_timer (w : World) : dissolutionTimer (snd (dissolve w)) = None.
Proof. dissolve_cases w. Qed.

(** Clearing the timer beforehand changes nothing: [dissolve] clears it. *)
Lemma dissolve_after_clear (w : World) :
  dissolve (set_dissolutionTimer None w) = dissolve w.
Proof. dissolve_cases w. Qed.

End Dissolve.

(** Case analysis along the branches of [execute]. *)
Ltac execute_cases :=
  repeat (cbn [fst snd];
    match goal with
    | |- context [read ?u ?p] => destruct (read u p) as [[?|]|?]
    | |- context [operations_get ?k] => destruct (operations_get k)
    | |- context [call_entry ?a ?b ?c] => destruct (call_entry a b c)
    end); cbn [fst snd].

Section Execute.

Lemma execute_inactive (userState : UserOwnedState) (w : World) :
  active w = false ->
  execute userState w = (Thrown (Error "Calculator has been dissolved"), w).
Proof.
  intros Hactive. run_js. rewrite Hactive. reflexivity.
Qed.

(** [execute] writes the registry slots and issues reads, nothing else. *)
Lemma execute_frame (userState : UserOwnedState) (w : World) :
  exists d l, snd (execute userState w) = set_read_log l (set_sensitiveData d w).
Proof.
  destruct w as [ck ge gcs rl al i0 pu ma ml ac ti es sd sr it].
  run_js. destruct ac; cbn [negb]; execute_cases;
    eexists; eexists; reflexivity.
Qed.

Lemma execute_active userState w :
  active (snd (execute userState w)) = active w.
Proof. destruct (execute_frame userState w) as (d & l & ->). reflexivity. Qed.

Lemma execute_timer userState w :
  dissolutionTimer (snd (execute userState w)) = dissolutionTimer w.
Proof. destruct (execute_frame userState w) as (d & l & ->). reflexivity. Qed.

Lemma execute_intent userState w :
  intent (snd (execute userState w)) = intent w.
Proof. destruct (execute_frame userState w) as (d & l & ->). reflexivity. Qed.

Lemma execute_manifestedAt userState w :
  manifestedAt (snd (execute userState w)) = manifestedAt w.
Proof. destruct (execute_frame userState w) as (d & l & ->). reflexivity. Qed.

Lemma execute_maxLifetime userState w :
  maxLifetime (snd (execute userState w)) = maxLifetime w.
Proof. destruct (execute_frame userState w) as (d & l & ->). reflexivity. Qed.

(** An active instance never rejects an [execute]: every failure inside
    the [try] block comes back as a result. *)
Lemma execute_returns (userState : UserOwnedState) (w : World) :
  active w = true ->
  exists r, fst (execute userState w) = Returned r.
Proof.
  intros Hactive. run_js. rewrite Hactive. cbn [negb].
  execute_cases; eexists; reflexivity.
Qed.

End Execute.

Section Timer.

Lemma elapse_fires (dt : N) (w : World) (due : Z) :
  dissolutionTimer w = Some due ->
  (due <= clock w + Z.of_N dt)%Z ->
  elapse dt w = set_clock (clock w + Z.of_N dt) (snd (dissolve w)).
Proof.
  intros Htimer Hdue. unfold elapse. rewrite Htimer.
  apply Z.leb_le in Hdue. rewrite Hdue.
  unfold timer_callback. rewrite dissolve_after_clear. reflexivity.
Qed.

Lemma elapse_waits (dt : N) (w : World) (due : Z) :
  dissolutionTimer w = Some due ->
  (clock w + Z.of_N dt < due)%Z ->
  elapse dt w = set_clock (clock w + Z.of_N dt) w.
Proof.
  intros Htimer Hdue. unfold elapse. rewrite Htimer.
  apply Z.leb_gt in Hdue. rewrite Hdue. reflexivity.
Qed.

Lemma elapse_idle (dt : N) (w : World) :
  dissolutionTimer w = None ->
  elapse dt w = set_clock (clock w + Z.of_N dt) w.
Proof.
  intros Htimer. unfold elapse. rewrite Htimer. reflexivity.
Qed.

End Timer.

(** ** What holds of every state an instance goes through *)

Section Invariant.
Variable env : Ambient.
Variable i : CalculatorIntent.
Variable options : option ManifestOptions.

Let w0 : World := manifestCalculator env i options.

Lemma invariant_manifest : invariant w0 w0.
Proof. split; try reflexivity; try discriminate. intros due H. exact H. Qed.

Lemma invariant_dissolve w : invariant w0 w -> invariant w0 (snd (dissolve w)).
Proof.
  intros [Hintent Hfrozen Hdis Htimer HmA HmL].
  rewrite (dissolve_frozen _ Hfrozen). cbn [snd]. split; cbn; try assumption.
  - intros _. repeat split.
  - discriminate.
Qed.

Lemma invariant_set_clock t w : invariant w0 w -> invariant w0 (set_clock t w).
Proof. intros [Hintent Hfrozen Hdis Htimer HmA HmL]. split; assumption. Qed.

Lemma invariant_execute userState w :
  invariant w0 w -> invariant w0 (snd (execute userState w)).
Proof.
  intros Hinv. destruct (active w) eqn:Hactive.
  - destruct Hinv as [Hintent Hfrozen Hdis Htimer HmA HmL]. split.
    + rewrite execute_intent. exact Hintent.
    + rewrite execute_intent. exact Hfrozen.
    + rewrite execute_active, Hactive. discriminate.
    + intros due. rewrite execute_timer. apply Htimer.
    + rewrite execute_manifestedAt. exact HmA.
    + rewrite execute_maxLifetime. exact HmL.
  - rewrite (execute_inactive _ _ Hactive). exact Hinv.
Qed.

Lemma invariant_elapse dt w : invariant w0 w -> invariant w0 (elapse dt w).
Proof.
  intros Hinv. unfold elapse.
  destruct (dissolutionTimer w) as [due|] eqn:Htimer.
  - destruct (due <=? clock w + Z.of_N dt)%Z.
    + apply invariant_set_clock. unfold timer_callback.
      rewrite dissolve_after_clear. apply invariant_dissolve, Hinv.
    + apply invariant_set_clock, Hinv.
  - apply invariant_set_clock, Hinv.
Qed.

Lemma invariant_step w c : invariant w0 w -> invariant w0 (step w c).
Proof.
  destruct c as [userState| |dt]; cbn [step].
  - apply invariant_execute.
  - apply invariant_dissolve.
  - apply invariant_elapse.
Qed.

Lemma invariant_reachable w : reachable env i options w -> invariant w0 w.
Proof.
  induction 1 as [|w c _ IH].
  - apply invariant_manifest.
  - apply invariant_step, IH.
Qed.

Lemma run_reachable cs w :
  reachable env i options w -> reachable env i options (run cs w).
Proof.
  revert w. induction cs as [|c cs IH]; intros w Hw; cbn.
  - exact Hw.
  - apply IH. constructor. exact Hw.
Qed.

Lemma invariant_run cs : invariant w0 (run cs w0).
Proof. apply invariant_reachable, run_reachable. constructor. Qed.

End Invariant.

Section Terminal.

Lemma dissolved_dissolve w : dissolved (snd (dissolve w)).
Proof.
  repeat split; [apply dissolve_active|apply dissolve_timer|apply dissolve_registry].
Qed.

(** A dissolved instance stays dissolved whatever is called on it. *)
Lemma dissolved_step w c : dissolved w -> dissolved (step w c).
Proof.
  intros (Hactive & Htimer & Hdata). destruct c as [userState| |dt]; cbn [step].
  - rewrite (execute_inactive _ _ Hactive). repeat split; assumption.
  - apply dissolved_dissolve.
  - rewrite (elapse_idle _ _ Htimer). repeat split; assumption.
Qed.

Lemma dissolved_run cs w : dissolved w -> dissolved (run cs w).
Proof.
  revert w. induction cs as [|c cs IH]; intros w Hw; cbn.
  - exact Hw.
  - apply IH, dissolved_step, Hw.
Qed.

Lemma run_app cs1 cs2 w : run (cs1 ++ cs2) w = run cs2 (run cs1 w).
Proof. unfold run. apply fold_left_app. Qed.

End Terminal.

(* ===================================================================== *)
(** * The registry after dissolution                                      *)
(* ===================================================================== *)

(** C1: whatever history an instance has had, and in particular whatever
    it executed and computed, once [dissolve()] has been invoked
    [getSensitiveData()] returns the record with its three slots null;
    it still does after any later calls. *)
Theorem sensitive_data_null_after_dissolve
        (env : Ambient) (i : CalculatorIntent) (options : option ManifestOptions)
        (before after : list call) :
  getSensitiveData
    (run (before ++ Dissolve :: after) (manifestCalculator env i options))
  = {| sd_operands := None; sd_result := None; sd_userPreferences := None |}.
Proof.
  rewrite run_app. change (run (Dissolve :: after) ?w) with (run after (snd (dissolve w))).
  unfold getSensitiveData.
  apply (dissolved_run after (dissolved_dissolve _)).
Qed.

(** C3: on every manifested instance, each call of [dissolve()] clears
    the active flag, cancels the timer and nulls the three slots of the
    registry object, and then rejects with a [TypeError]: the second
    object swept is the intent, frozen at construction.  The hint to the
    collector and the reassignment of [this.sensitiveData] are not
    reached: no hint is recorded and the field still points to the same
    object. *)
Theorem dissolve_rejects_on_frozen_intent
        (env : Ambient) (i : CalculatorIntent) (options : option ManifestOptions)
        (cs : list call) :
  let w := run cs (manifestCalculator env i options) in
  let w' := snd (dissolve w) in
  io_frozen (intent w) = true /\
  (exists message, fst (dissolve w) = Thrown (TypeError message)) /\
  active w' = false /\
  dissolutionTimer w' = None /\
  sensitiveData w' = all_null /\
  gc_calls w' = gc_calls w /\
  sensitiveDataRef w' = sensitiveDataRef w /\
  allocations w' = allocations w.
Proof.
  intros w w'. subst w'.
  assert (Hfrozen : io_frozen (intent w) = true)
    by apply (inv_frozen (invariant_run env i options cs)).
  rewrite (dissolve_frozen _ Hfrozen). cbn.
  repeat split; try assumption. eexists. reflexivity.
Qed.

(** C7: a second [dissolve()] right after a first one completes the same
    way and leaves the store exactly as the first call left it: inactive,
    timer cancelled, three slots null. *)
Theorem dissolve_idempotent
        (env : Ambient) (i : CalculatorIntent) (options : option ManifestOptions)
        (cs : list call) :
  let w := run cs (manifestCalculator env i options) in
  let w1 := snd (dissolve w) in
  dissolve w1 = (fst (dissolve w), w1) /\
  active w1 = false /\
  dissolutionTimer w1 = None /\
  sensitiveData w1 = all_null.
Proof.
  intros w w1. subst w1.
  assert (Hfrozen : io_frozen (intent w) = true)
    by apply (inv_frozen (invariant_run env i options cs)).
  rewrite (dissolve_frozen _ Hfrozen). cbn [fst snd].
  rewrite dissolve_frozen by exact Hfrozen.
  repeat split.
Qed.

(** C8: through every history of [execute()], [dissolve()] and elapsed
    time, the intent object keeps the operation name and the operands
    the caller supplied.  (The constructor freezes the object; that is
    what turns the sweep's assignments to it into a rejection.) *)
Theorem intent_never_mutated
        (env : Ambient) (i : CalculatorIntent) (options : option ManifestOptions)
        (cs : list call) :
  let w := run cs (manifestCalculator env i options) in
  io_operation (intent w) = Some (operation i) /\
  io_operands (intent w) = Some (operands i).
Proof.
  intros w. subst w.
  rewrite (inv_intent (invariant_run env i options cs)). split; reflexivity.
Qed.

(* ===================================================================== *)
(** * Residual data                                                       *)
(* ===================================================================== *)

(** [hasResidualData()] does not look at the registry: right after
    manifestation the [operands] slot holds the snapshot of the operands
    and the method answers [false]. *)
Lemma hasResidualData_ignores_registry :
  has_non_null_slot
    (getSensitiveData (manifestCalculator sample_env sample_intent None)) = true /\
  hasResidualData (manifestCalculator sample_env sample_intent None) = false.
Proof. split; reflexivity. Qed.

(** C6, as the code has it: [hasResidualData()] answers [false] at every
    point of the lifecycle; this agrees with the registry once the
    instance is no longer active, when no slot holds a value. *)
Theorem hasResidualData_constant
        (env : Ambient) (i : CalculatorIntent) (options : option ManifestOptions)
        (cs : list call) :
  let w := run cs (manifestCalculator env i options) in
  hasResidualData w = false /\
  (isActive w = false ->
   has_non_null_slot (getSensitiveData w) = false /\
   hasResidualData w = has_non_null_slot (getSensitiveData w)).
Proof.
  intros w. split; [reflexivity|]. intros Hinactive.
  destruct (inv_dissolved (invariant_run env i options cs) Hinactive)
    as (_ & _ & Hdata).
  unfold getSensitiveData. fold w in Hdata. rewrite Hdata. split; reflexivity.
Qed.

(* ===================================================================== *)
(** * Timed dissolution                                                   *)
(* ===================================================================== *)

(** Within the range of the host's timers: an instance manifested with
    [maxLifetime = m], [1 <= m <= 2147483647], is active and has one
    pending timer, due at [manifestedAt + m].  Through any history,
    while that timer is pending it keeps this due time; when the clock
    reaches it the timer fires and leaves the store as a manual
    [dissolve()] would (the clock apart), so the instance is inactive
    with its three slots null and no timer pending; before that, and
    once the timer is no longer pending, elapsed time changes only the
    clock. *)
Lemma auto_dissolution
      (env : Ambient) (i : CalculatorIntent) (m : Z) :
  (1 <= m <= TIMEOUT_MAX)%Z ->
  let w0 := manifestCalculator env i (Some {| option_maxLifetime := Some m |}) in
  (isActive w0 = true /\
   maxLifetime w0 = m /\
   dissolutionTimer w0 = Some (manifestedAt w0 + m)%Z) /\
  forall (cs : list call) (dt : N),
    let w := run cs w0 in
    let t := (clock w + Z.of_N dt)%Z in
    match dissolutionTimer w with
    | Some due =>
        due = (manifestedAt w0 + m)%Z /\
        if (due <=? t)%Z
        then elapse dt w = set_clock t (snd (dissolve w)) /\
             isActive (elapse dt w) = false /\
             getSensitiveData (elapse dt w) = all_null /\
             dissolutionTimer (elapse dt w) = None
        else elapse dt w = set_clock t w
    | None => elapse dt w = set_clock t w
    end.
Proof.
  intros Hm w0.
  assert (Hnz : (m =? 0)%Z = false) by (apply Z.eqb_neq; lia).
  assert (Hdelay : timer_delay m = m).
  { unfold timer_delay.
    destruct (Z.leb_spec 1 m); [|lia].
    destruct (Z.leb_spec m TIMEOUT_MAX); [reflexivity|lia]. }
  assert (Hlife : maxLifetime w0 = m).
  { cbn. rewrite Hnz. reflexivity. }
  assert (Htimer0 : dissolutionTimer w0 = Some (manifestedAt w0 + m)%Z).
  { cbn. rewrite Hnz. unfold setTimeout. rewrite Hdelay. reflexivity. }
  split; [repeat split; assumption|].
  intros cs dt w t.
  pose proof (invariant_run env i (Some {| option_maxLifetime := Some m |}) cs) as Hinv.
  fold w0 in Hinv. fold w in Hinv.
  destruct (dissolutionTimer w) as [due|] eqn:Htimer.
  - split.
    + apply (inv_timer Hinv) in Htimer. rewrite Htimer0 in Htimer.
      injection Htimer as <-. reflexivity.
    + destruct (due <=? t)%Z eqn:Hdue.
      * apply Z.leb_le in Hdue.
        rewrite (elapse_fires _ _ Htimer Hdue). fold t.
        unfold isActive, getSensitiveData. cbn.
        repeat split;
          [apply dissolve_active|apply dissolve_registry|apply dissolve_timer].
      * apply Z.leb_gt in Hdue. exact (elapse_waits _ _ Htimer Hdue).
  - exact (elapse_idle _ _ Htimer).
Qed.

(** With [maxLifetime = 100]: active at once, and inactive with a null
    registry after 150 ms without any call of [dissolve()]. *)
Lemma auto_dissolution_100 :
  isActive (manifestCalculator sample_env sample_intent
              (Some {| option_maxLifetime := Some 100%Z |})) = true /\
  isActive (elapse 150 (manifestCalculator sample_env sample_intent
              (Some {| option_maxLifetime := Some 100%Z |}))) = false /\
  getSensitiveData (elapse 150 (manifestCalculator sample_env sample_intent
              (Some {| option_maxLifetime := Some 100%Z |}))) = all_null.
Proof.
  assert (H : (1 <= 100 <= TIMEOUT_MAX)%Z) by (unfold TIMEOUT_MAX; lia).
  destruct (auto_dissolution sample_env sample_intent H) as [(Hactive & _) Hlater].
  split; [exact Hactive|].
  specialize (Hlater [] 150%N). cbn in Hlater.
  destruct Hlater as (_ & _ & Hinactive & Hdata & _).
  split; assumption.
Qed.

(** C2, at a lifetime beyond the range of the host's timers.  An
    instance manifested with [maxLifetime = m], [m > 2147483647], reports
    that lifetime and an ephemeral state expiring at [manifestedAt + m],
    but its timer is armed for 1 ms: it is due at [manifestedAt + 1],
    not at [manifestedAt + m], and as soon as a millisecond has passed,
    without any call of [dissolve()], the instance is inactive and its
    registry is null. *)
Theorem lifetime_beyond_timer_range
        (env : Ambient) (i : CalculatorIntent) (m : Z) (dt : N) :
  (TIMEOUT_MAX < m)%Z ->
  (1 <= dt)%N ->
  let w0 := manifestCalculator env i (Some {| option_maxLifetime := Some m |}) in
  isActive w0 = true /\
  maxLifetime w0 = m /\
  expiresAt (ephemeralState w0) = (manifestedAt w0 + m)%Z /\
  dissolutionTimer w0 = Some (manifestedAt w0 + 1)%Z /\
  dissolutionTimer w0 <> Some (manifestedAt w0 + m)%Z /\
  isActive (elapse dt w0) = false /\
  getSensitiveData (elapse dt w0) = all_null.
Proof.
  intros Hm Hdt w0.
  assert (Hnz : (m =? 0)%Z = false) by (apply Z.eqb_neq; unfold TIMEOUT_MAX in Hm; lia).
  assert (Hdelay : timer_delay m = 1%Z).
  { unfold timer_delay.
    destruct (Z.leb_spec m TIMEOUT_MAX); [lia|].
    rewrite andb_false_r. reflexivity. }
  assert (Htimer0 : dissolutionTimer w0 = Some (manifestedAt w0 + 1)%Z).
  { cbn. rewrite Hnz. unfold setTimeout. rewrite Hdelay. reflexivity. }
  assert (Hdue : (manifestedAt w0 + 1 <= clock w0 + Z.of_N dt)%Z).
  { change (clock w0) with (now env). change (manifestedAt w0) with (now env). lia. }
  split; [reflexivity|].
  split; [cbn; rewrite Hnz; reflexivity|].
  split; [cbn; rewrite Hnz; reflexivity|].
  split; [exact Htimer0|].
  split.
  { rewrite Htimer0. intros H. injection H as H. unfold TIMEOUT_MAX in Hm. lia. }
  rewrite (elapse_fires _ _ Htimer0 Hdue).
  split.
  - exact (dissolve_active w0).
  - exact (dissolve_registry w0).
Qed.

Lemma lifetime_beyond_timer_range_witness :
  let w0 := manifestCalculator sample_env sample_intent
              (Some {| option_maxLifetime := Some 2147483648%Z |}) in
  isActive w0 = true /\
  maxLifetime w0 = 2147483648%Z /\
  dissolutionTimer w0 = Some 1001%Z /\
  isActive (elapse 50 w0) = false /\
  getSensitiveData (elapse 50 w0) = all_null.
Proof.
  assert (Hm : (TIMEOUT_MAX < 2147483648)%Z) by reflexivity.
  assert (Hdt : (1 <= 50)%N) by (intro H; discriminate H).
  destruct (lifetime_beyond_timer_range sample_env sample_intent Hm Hdt)
    as (Hactive & Hlife & _ & Htimer & _ & Hinactive & Hdata).
  repeat split; assumption.
Defined.

(* ===================================================================== *)
(** * Failures inside [execute]                                           *)
(* ===================================================================== *)

(** C4, as the code has it: on an active instance a failure of the
    broker's read is caught by the [try] block of [execute] and comes
    back as a result whose [error] is the failure's message (or
    "Unknown error" when the failure is not an [Error]), with the
    operation and the completion time.  One read was issued, nothing was
    retried, and nothing else in the store changed. *)
Theorem broker_failure_is_returned
        (userState : UserOwnedState) (w : World) (e : js_exn) :
  active w = true ->
  read userState preferences_path = Thrown e ->
  execute userState w =
    (Returned {| value := None;
                 error := Some (if instanceof_Error e then message_of e
                                else "Unknown error"%string);
                 result_operation := io_operation (intent w);
                 completedAt := clock w |},
     set_read_log (read_log w ++ [preferences_path]) w).
Proof.
  intros Hactive Hread. run_js. rewrite Hactive, Hread. reflexivity.
Qed.

(* ===================================================================== *)
(** * Properties of the operations                                        *)
(* ===================================================================== *)

(** ** Binary64 facts

    Addition and multiplication commute, and [1] is neutral for
    multiplication.  They are proved on the specification of the format
    ([SpecFloat]) and carried to [float] by the axioms that tie the two. *)

Lemma SFadd_comm x y : SFadd prec emax x y = SFadd prec emax y x.
Proof.
  destruct x as [sx|sx| |sx mx ex], y as [sy|sy| |sy my ey]; cbn [SFadd];
    try reflexivity.
  - destruct sx, sy; reflexivity.
  - destruct sx, sy; reflexivity.
  - rewrite (Z.min_comm ey ex), Z.add_comm. reflexivity.
Qed.

Lemma SFmul_comm x y : SFmul prec emax x y = SFmul prec emax y x.
Proof.
  destruct x as [sx|sx| |sx mx ex], y as [sy|sy| |sy my ey]; cbn [SFmul];
    rewrite ?(xorb_comm sy sx); try reflexivity.
  rewrite (Pos.mul_comm my mx), (Z.add_comm ey ex). reflexivity.
Qed.

Lemma digits2_pos_shift (m : positive) (k : nat) :
  Z.pos (digits2_pos (Nat.iter k xO m)) = (Z.pos (digits2_pos m) + Z.of_nat k)%Z.
Proof.
  induction k as [|k IH].
  - change (Nat.iter 0 xO m) with m. lia.
  - change (Nat.iter (S k) xO m) with (xO (Nat.iter k xO m)).
    change (digits2_pos (xO (Nat.iter k xO m)))
      with (Pos.succ (digits2_pos (Nat.iter k xO m))).
    rewrite Pos2Z.inj_succ, IH. lia.
Qed.

Lemma SFmul_one_finite s m e :
  bounded prec emax m e = true ->
  SFmul prec emax (S754_finite false 4503599627370496 (-52)) (S754_finite s m e)
  = S754_finite s m e.
Proof.
  intros Hb. apply andb_prop in Hb as [Hc He].
  unfold canonical_mantissa in Hc. apply Z.eqb_eq in Hc. apply Z.leb_le in He.
  cbn [SFmul xorb].
  change (4503599627370496 * m)%positive with (Nat.iter 52 xO m).
  unfold binary_round_aux, shr_fexp.
  cbn [Zdigits2 shr_record_of_loc].
  rewrite digits2_pos_shift.
  replace (Z.pos (digits2_pos m) + Z.of_nat 52 + (-52 + e))%Z
    with (Z.pos (digits2_pos m) + e)%Z by lia.
  rewrite Hc.
  replace (e - (-52 + e))%Z with 52%Z by lia.
  cbn [shr].
  change (SpecFloat.iter_pos shr_1 52
            {| shr_m := Z.pos (Nat.iter 52 xO m); shr_r := false; shr_s := false |})
    with {| shr_m := Z.pos m; shr_r := false; shr_s := false |}.
  cbn [shr_m loc_of_shr_record round_nearest_even Zdigits2].
  replace (-52 + e + 52)%Z with e by lia.
  rewrite Hc, Z.sub_diag. cbn [shr shr_m].
  apply Z.leb_le in He. rewrite He. reflexivity.
Qed.

Lemma SFmul_one_l x :
  valid_binary x = true -> SFmul prec emax (Prim2SF 1) x = x.
Proof.
  change (Prim2SF 1) with (S754_finite false 4503599627370496 (-52)).
  destruct x as [s|s| |s m e]; intros Hv; try reflexivity.
  apply SFmul_one_finite, Hv.
Qed.

Lemma float_mul_one_l (a : float) : (1 * a)%float = a.
Proof.
  apply Prim2SF_inj. rewrite mul_spec. apply SFmul_one_l, Prim2SF_valid.
Qed.

Lemma float_add_comm (a b : float) : (a + b)%float = (b + a)%float.
Proof. apply Prim2SF_inj. rewrite !add_spec. apply SFadd_comm. Qed.

Lemma float_mul_comm (a b : float) : (a * b)%float = (b * a)%float.
Proof. apply Prim2SF_inj. rewrite !mul_spec. apply SFmul_comm. Qed.

Lemma float_add_zero_swap (a b : float) :
  (0 + a + b)%float = (0 + b + a)%float.
Proof.
  apply Prim2SF_inj. rewrite !add_spec. unfold SF64add.
  change (Prim2SF 0) with (S754_zero false).
  destruct (Prim2SF a) as [sa|sa| |sa ma ea], (Prim2SF b) as [sb|sb| |sb mb eb];
    try reflexivity;
    try (destruct sa; reflexivity); try (destruct sb; reflexivity);
    try (destruct sa, sb; reflexivity).
  apply SFadd_comm.
Qed.

(** ** The four operations as folds *)

Section Operations.
Variable preferences : CalculatorPreferences.

Lemma reduce_from_total (f : float -> float -> float) xs :
  forall acc index,
    reduce_from (fun a v _ => Returned (f a v)) acc index xs
    = Returned (fold_left f xs acc).
Proof.
  induction xs as [|x xs IH]; intros acc index; cbn [reduce_from fold_left].
  - reflexivity.
  - apply IH.
Qed.

Lemma performAddition_fold xs :
  performAddition xs preferences = Returned (fold_left PrimFloat.add xs 0%float).
Proof. apply reduce_from_total. Qed.

Lemma performMultiplication_fold xs :
  performMultiplication xs preferences = Returned (fold_left PrimFloat.mul xs 1%float).
Proof. apply reduce_from_total. Qed.

Lemma subtraction_from xs :
  forall acc index,
    reduce_from
      (fun diff value index =>
         Returned (if Nat.eqb index 0 then value else (diff - value)%float))
      acc (S index) xs
    = Returned (fold_left PrimFloat.sub xs acc).
Proof.
  induction xs as [|x xs IH]; intros acc index; cbn [reduce_from fold_left Nat.eqb].
  - reflexivity.
  - apply IH.
Qed.

Lemma performSubtraction_fold first rest :
  performSubtraction (first :: rest) preferences
  = Returned (fold_left PrimFloat.sub rest first).
Proof. apply subtraction_from. Qed.

(** From index 1 on, the callback of [performDivision] divides, and
    throws at the first operand equal to zero. *)
Lemma division_from xs :
  forall acc index,
    reduce_from division_step acc (S index) xs
    = if existsb is_zero xs then Thrown (Error "Division by zero")
      else Returned (fold_left PrimFloat.div xs acc).
Proof.
  induction xs as [|x xs IH]; intros acc index; cbn [reduce_from fold_left existsb].
  - reflexivity.
  - unfold division_step at 1. cbn [Nat.eqb]. fold (is_zero x).
    destruct (is_zero x); cbn [orb].
    + reflexivity.
    + apply IH.
Qed.

Lemma performDivision_cases first rest :
  performDivision (first :: rest) preferences =
    if existsb is_zero rest
    then Thrown (Error "Division by zero")
    else Returned
           (let quotient := fold_left PrimFloat.div rest first in
            match precision preferences with
            | Some p => round_to_digits Math_round quotient p
            | None => quotient
            end).
Proof.
  unfold performDivision, createMomentaryFunction, Array_reduce.
  rewrite division_from.
  destruct (existsb is_zero rest); reflexivity.
Qed.

End Operations.

(** ** Rounding to the nearest integer *)

Section Nearest.

(** [nearest_ties_up num den] is the integer [n] with
    [n - 1/2 <= num / den < n + 1/2]: a tie goes up. *)
Lemma nearest_ties_up_spec (num den : Z) :
  (0 < den)%Z ->
  ((2 * nearest_ties_up num den - 1) * den <= 2 * num
   < (2 * nearest_ties_up num den + 1) * den)%Z.
Proof.
  intros Hden. unfold nearest_ties_up.
  pose proof (Z.div_mod (2 * num + den) (2 * den) ltac:(lia)) as Hdiv.
  pose proof (Z.mod_pos_bound (2 * num + den) (2 * den) ltac:(lia)) as Hmod.
  nia.
Qed.

(** On a non-negative ratio the two roundings agree; they part on the
    negative ties. *)
Lemma nearest_agree_nonneg (num den : Z) :
  (0 <= num)%Z -> nearest_ties_away num den = nearest_ties_up num den.
Proof.
  intros Hnum. unfold nearest_ties_away, nearest_ties_up.
  rewrite (Z.abs_eq num) by exact Hnum.
  destruct (Z.eq_dec num 0) as [->|Hne].
  - cbn [Z.sgn]. change (2 * 0 + den)%Z with den.
    destruct (Z.eq_dec den 0) as [->|Hden]; [reflexivity|].
    destruct (Z.lt_ge_cases 0 den) as [Hpos|Hneg].
    + rewrite Z.div_small by lia. reflexivity.
    + rewrite Z.mul_0_l.
      assert (H : (den / (2 * den) = 0)%Z); [|rewrite H; reflexivity].
      rewrite <- (Z.div_opp_opp den) by lia.
      apply Z.div_small. lia.
  - rewrite Z.sgn_pos by lia. lia.
Qed.

End Nearest.

(** ** Division *)

(** C9, as the code has it: for operands [first :: rest], [divide] throws
    "Division by zero" when an operand after the first equals zero, and
    otherwise returns the left-fold quotient seeded by the first operand:
    at full precision when no precision is set, and else multiplied by
    [Math.pow(10, p)], rounded by [Math.round] and divided by
    [Math.pow(10, p)], on whatever engine the code runs
    ([Math.pow(10, p)] is the power itself up to [p = 22], and what the
    engine returns beyond).  [Math.round] takes the nearest integer and
    sends a tie towards +infinity, so [2.5] becomes [3] and [-2.5]
    becomes [-2].  [22 / 7] at two digits is [3.14]. *)
Theorem performDivision_quotient
        (first : float) (rest : list float) (preferences : CalculatorPreferences) :
  performDivision (first :: rest) preferences =
    (if existsb is_zero rest
     then Thrown (Error "Division by zero")
     else Returned
            (let quotient := fold_left PrimFloat.div rest first in
             match precision preferences with
             | Some p => round_to_digits Math_round quotient p
             | None => quotient
             end)) /\
  (forall num den : Z,
      (0 < den)%Z ->
      ((2 * nearest_ties_up num den - 1) * den <= 2 * num
       < (2 * nearest_ties_up num den + 1) * den)%Z) /\
  Math_round 2.5%float = 3%float /\
  Math_round (-2.5)%float = (-2)%float /\
  performDivision [22%float; 7%float]
    {| precision := Some 2%N; roundingMode := None |} = Returned 3.14%float.
Proof.
  split; [apply performDivision_cases|].
  split; [exact nearest_ties_up_spec|].
  repeat split; vm_compute; reflexivity.
Qed.

(** ** Addition and multiplication *)

(** Three operands whose sum and whose product change with their order:
    [1e16 + 1] rounds back to [1e16], and [1e200 * 1e200] overflows. *)
Lemma result_depends_on_operand_order :
  Permutation [1e16%float; 1%float; (-1e16)%float]
              [1e16%float; (-1e16)%float; 1%float] /\
  performAddition [1e16%float; 1%float; (-1e16)%float] no_preferences
  <> performAddition [1e16%float; (-1e16)%float; 1%float] no_preferences /\
  Permutation [1e200%float; 1e200%float; 1e-200%float]
              [1e200%float; 1e-200%float; 1e200%float] /\
  performMultiplication [1e200%float; 1e200%float; 1e-200%float] no_preferences
  <> performMultiplication [1e200%float; 1e-200%float; 1e200%float] no_preferences.
Proof.
  repeat split.
  - apply perm_skip, perm_swap.
  - vm_compute. intros H. discriminate H.
  - apply perm_skip, perm_swap.
  - vm_compute. intros H. discriminate H.
Qed.

(** C10, as the code has it: [add] returns the left-to-right binary64 sum
    of the operands seeded with 0 and [multiply] their left-to-right
    product seeded with 1; exchanging the first two operands changes
    neither, so for two operands the result does not depend on their
    order. *)
Theorem sum_and_product_of_operands
        (preferences : CalculatorPreferences) (a b : float) (rest : list float) :
  (forall xs : list float,
      performAddition xs preferences = Returned (fold_left PrimFloat.add xs 0%float) /\
      performMultiplication xs preferences
      = Returned (fold_left PrimFloat.mul xs 1%float)) /\
  performAddition (a :: b :: rest) preferences
  = performAddition (b :: a :: rest) preferences /\
  performMultiplication (a :: b :: rest) preferences
  = performMultiplication (b :: a :: rest) preferences.
Proof.
  split; [intros xs; split;
          [apply performAddition_fold|apply performMultiplication_fold]|].
  rewrite !performAddition_fold, !performMultiplication_fold.
  cbn [fold_left].
  rewrite (float_add_zero_swap a b), !float_mul_one_l, (float_mul_comm a b).
  split; reflexivity.
Qed.

(* ===================================================================== *)
(** * Domain failures and unknown operations in [execute]                 *)
(* ===================================================================== *)

Section Registry.

Lemma assoc_None {A} (key : string) (props : list (string * A)) :
  assoc key props = None <-> ~ In key (map fst props).
Proof.
  induction props as [|[k v] props IH]; cbn [assoc map fst In].
  - tauto.
  - destruct (String.eqb_spec key k) as [->|Hne].
    + split; [discriminate|]. intros H. exfalso. apply H. left. reflexivity.
    + rewrite IH. split.
      * intros H [Heq|Hin]; [congruence|contradiction].
      * intros H Hin. apply H. right. exact Hin.
Qed.

(** [operations[name]] is [undefined] exactly for the names that are
    neither one of the four operations nor a member of
    [Object.prototype]. *)
Lemma operations_get_NoEntry (name : string) :
  operations_get name = NoEntry <->
  ~ In name (map fst operations) /\ ~ In name (map fst Object_prototype).
Proof.
  unfold operations_get. rewrite <- !assoc_None.
  destruct (assoc name operations); [split; [discriminate|intros [H _]; discriminate]|].
  destruct (assoc name Object_prototype);
    [split; [discriminate|intros [_ H]; discriminate]|].
  split; auto.
Qed.

(** A name that [operations[name]] does not resolve comes back as an
    error result, and the instance stays active. *)
Lemma execute_unknown_operation userState w p :
  active w = true ->
  read userState preferences_path = Returned p ->
  operations_get (to_text (io_operation (intent w))) = NoEntry ->
  fst (execute userState w) =
    Returned {| value := None;
                error := Some ("Unknown operation: "
                               ++ to_text (io_operation (intent w)))%string;
                result_operation := io_operation (intent w);
                completedAt := clock w |} /\
  isActive (snd (execute userState w)) = true.
Proof.
  intros Hactive Hread Hget. split.
  - run_js. rewrite Hactive, Hread. run_js. rewrite Hget.
    destruct p; reflexivity.
  - unfold isActive. rewrite execute_active. exact Hactive.
Qed.

(** A division by zero comes back as an error result, and the instance
    stays active. *)
Lemma execute_division_by_zero userState w p first rest :
  active w = true ->
  read userState preferences_path = Returned p ->
  io_operation (intent w) = Some "divide"%string ->
  io_operands (intent w) = Some (first :: rest) ->
  existsb is_zero rest = true ->
  fst (execute userState w) =
    Returned {| value := None;
                error := Some "Division by zero"%string;
                result_operation := Some "divide"%string;
                completedAt := clock w |} /\
  isActive (snd (execute userState w)) = true.
Proof.
  intros Hactive Hread Hop Hargs Hzero. split.
  - run_js. rewrite Hactive, Hread. run_js. rewrite Hop, Hargs. cbn [to_text].
    change (operations_get "divide") with (OwnEntry performDivision).
    cbn [call_entry].
    rewrite performDivision_cases, Hzero. destruct p; cbn; rewrite Hop; reflexivity.
  - unfold isActive. rewrite execute_active. exact Hactive.
Qed.

End Registry.

(** C5 at a name inherited from [Object.prototype]: the name is not one
    of the four operations, yet [operations[name]] resolves it, the
    member is called, and [execute] returns what it returns as a value,
    with no error. *)
Theorem execute_resolves_inherited_names :
  operations_get "toString" = InheritedEntry P_toString /\
  fst (execute empty_broker
         (manifestCalculator sample_env
            {| operation := "toString"; operands := [1%float; 2%float] |} None))
  = Returned {| value := Some (VString "[object Undefined]");
                error := None;
                result_operation := Some "toString"%string;
                completedAt := now sample_env |} /\
  fst (execute empty_broker
         (manifestCalculator sample_env
            {| operation := "constructor"; operands := [1%float; 2%float] |} None))
  = Returned {| value := Some (VArray [1%float; 2%float]);
                error := None;
                result_operation := Some "constructor"%string;
                completedAt := now sample_env |}.
Proof. repeat split. Qed.

(* ===================================================================== *)
(** * An [execute] in flight across a dissolution                         *)
(* ===================================================================== *)

(** The histories above are made of awaited calls.  When [dissolve] runs
    while an [execute] is still awaiting its read, the continuation runs
    on the dissolved instance and fills two slots again. *)
Lemma execute_in_flight_across_dissolve :
  let w0 := manifestCalculator sample_env sample_intent None in
  let w1 := snd (execute_begin w0) in
  let w2 := snd (dissolve w1) in
  let w3 := snd (execute_resume (read empty_broker preferences_path) w2) in
  getSensitiveData w2 = all_null /\
  isActive w3 = false /\
  getSensitiveData w3 =
    {| sd_operands := None;
       sd_result := Some (VNumber 3%float);
       sd_userPreferences := Some no_preferences |}.
Proof. repeat split. Qed.

(* ===================================================================== *)
(** * More on [execute]                                                   *)
(* ===================================================================== *)

Section ExecuteOutcome.

Lemma operations_get_own name f :
  assoc name operations = Some f -> operations_get name = OwnEntry f.
Proof. intros H. unfold operations_get. rewrite H. reflexivity. Qed.

(** The outcome of [execute] on an active instance whose operation is an
    own entry of the registry, by the completion of that entry. *)
Lemma execute_own_entry userState w p name f xs :
  active w = true ->
  read userState preferences_path = Returned p ->
  io_operation (intent w) = Some name ->
  assoc name operations = Some f ->
  io_operands (intent w) = Some xs ->
  execute userState w =
    match f xs (or_empty p) with
    | Returned x =>
        (Returned {| value := Some (VNumber x); error := None;
                     result_operation := Some name; completedAt := clock w |},
         set_sensitiveData
           {| sd_operands := sd_operands (sensitiveData w);
              sd_result := Some (VNumber x);
              sd_userPreferences := Some (or_empty p) |}
           (set_read_log (read_log w ++ [preferences_path]) w))
    | Thrown e =>
        (Returned {| value := None;
                     error := Some (if instanceof_Error e then message_of e
                                    else "Unknown error"%string);
                     result_operation := Some name; completedAt := clock w |},
         set_sensitiveData
           {| sd_operands := sd_operands (sensitiveData w);
              sd_result := sd_result (sensitiveData w);
              sd_userPreferences := Some (or_empty p) |}
           (set_read_log (read_log w ++ [preferences_path]) w))
    end.
Proof.
  intros Hactive Hread Hname Hown Hargs.
  apply operations_get_own in Hown.
  run_js. rewrite Hactive, Hread. run_js. rewrite Hname, Hargs. cbn [to_text].
  rewrite Hown. cbn [call_entry]. fold (or_empty p).
  destruct (f xs (or_empty p)) as [x|e]; run_js; rewrite ?Hname; reflexivity.
Qed.

Lemma execute_read_log userState w :
  read_log (snd (execute userState w))
  = if active w then read_log w ++ [preferences_path] else read_log w.
Proof.
  destruct w as [ck ge gcs rl al i0 pu ma ml ac ti es sd sr it].
  run_js. destruct ac; cbn [negb]; execute_cases; reflexivity.
Qed.

Lemma execute_operands_slot userState w :
  sd_operands (sensitiveData (snd (execute userState w)))
  = sd_operands (sensitiveData w).
Proof.
  destruct w as [ck ge gcs rl al i0 pu ma ml ac ti es sd sr it].
  run_js. destruct ac; cbn [negb]; execute_cases; reflexivity.
Qed.

Lemma execute_rest userState w :
  let w' := snd (execute userState w) in
  clock w' = clock w /\ id w' = id w /\ purpose w' = purpose w /\
  ephemeralState w' = ephemeralState w /\ gc_calls w' = gc_calls w /\
  allocations w' = allocations w /\ sensitiveDataRef w' = sensitiveDataRef w.
Proof.
  cbn zeta. destruct (execute_frame userState w) as (d & l & ->).
  repeat split.
Qed.

End ExecuteOutcome.

(** [X1] On an active instance whose operation is one of the four, the
    completion of the operation decides the result: a number [x] comes
    back as [{value: x, operation, completedAt}] and is stored in the
    [result] slot; a thrown error comes back as [{error: message}] and
    leaves the [result] slot as it was.  Either way the preferences that
    were read are stored, the [operands] slot is untouched, exactly one
    read is issued, and nothing else changes. *)
Theorem execute_own_operation
        (userState : UserOwnedState) (w : World) (p : option CalculatorPreferences)
        (name : string) (f : CalculationFunction) (xs : list float) :
  active w = true ->
  read userState preferences_path = Returned p ->
  io_operation (intent w) = Some name ->
  assoc name operations = Some f ->
  io_operands (intent w) = Some xs ->
  execute userState w =
    match f xs (or_empty p) with
    | Returned x =>
        (Returned {| value := Some (VNumber x); error := None;
                     result_operation := Some name; completedAt := clock w |},
         set_sensitiveData
           {| sd_operands := sd_operands (sensitiveData w);
              sd_result := Some (VNumber x);
              sd_userPreferences := Some (or_empty p) |}
           (set_read_log (read_log w ++ [preferences_path]) w))
    | Thrown e =>
        (Returned {| value := None;
                     error := Some (if instanceof_Error e then message_of e
                                    else "Unknown error"%string);
                     result_operation := Some name; completedAt := clock w |},
         set_sensitiveData
           {| sd_operands := sd_operands (sensitiveData w);
              sd_result := sd_result (sensitiveData w);
              sd_userPreferences := Some (or_empty p) |}
           (set_read_log (read_log w ++ [preferences_path]) w))
    end.
Proof. apply execute_own_entry. Qed.

(** [X2] Once [dissolve()] has been called, every later [execute()]
    rejects with "Calculator has been dissolved"; it issues no read and
    changes nothing. *)
Theorem execute_rejected_after_dissolve
        (env : Ambient) (i : CalculatorIntent) (options : option ManifestOptions)
        (before after : list call) (userState : UserOwnedState) :
  let w := run (before ++ Dissolve :: after) (manifestCalculator env i options) in
  execute userState w = (Thrown (Error "Calculator has been dissolved"), w).
Proof.
  intros w. apply execute_inactive. subst w.
  rewrite run_app.
  change (run (Dissolve :: after) ?w) with (run after (snd (dissolve w))).
  apply (dissolved_run after (dissolved_dissolve _)).
Qed.

(** [X3] [execute] can be repeated: a second awaited call with the same
    broker completes exactly as the first and leaves the same registry. *)
Theorem execute_repeatable (userState : UserOwnedState) (w : World) :
  let w1 := snd (execute userState w) in
  fst (execute userState w1) = fst (execute userState w) /\
  sensitiveData (snd (execute userState w1)) = sensitiveData w1.
Proof.
  destruct w as [ck ge gcs rl al i0 pu ma ml ac ti es sd sr it].
  cbn zeta. run_js. destruct ac; cbn [negb]; [|split; reflexivity].
  destruct (read userState preferences_path) as [p|e]; run_js;
    [|split; reflexivity].
  destruct (operations_get (to_text (io_operation it))) as [f|m|] eqn:Hget;
    try match goal with
        | |- context [call_entry ?a ?b ?c] =>
            destruct (call_entry a b c) eqn:Hcall
        end;
    run_js; rewrite ?Hget; run_js; rewrite ?Hcall; run_js; split; reflexivity.
Qed.

(* ===================================================================== *)
(** * More invariants of histories                                        *)
(* ===================================================================== *)

Section Steady.
Variable env : Ambient.
Variable i : CalculatorIntent.
Variable options : option ManifestOptions.

Let w0 : World := manifestCalculator env i options.

Lemma steady_manifest : steady w0 w0.
Proof. split; try reflexivity. constructor. Qed.

Lemma steady_set_clock t w :
  (clock w <= t)%Z -> steady w0 w -> steady w0 (set_clock t w).
Proof.
  intros Ht [Hid Hpu Hes Hgc Hal Hsr Hti Hop Hrl Hck].
  split; cbn [clock id purpose ephemeralState gc_calls allocations
              sensitiveDataRef dissolutionTimer active sensitiveData read_log
              set_clock]; try assumption.
  lia.
Qed.

Lemma steady_dissolve w :
  io_frozen (intent w) = true -> steady w0 w -> steady w0 (snd (dissolve w)).
Proof.
  intros Hfrozen [Hid Hpu Hes Hgc Hal Hsr Hti Hop Hrl Hck].
  rewrite (dissolve_frozen _ Hfrozen). cbn [snd].
  split; cbn; try assumption; reflexivity.
Qed.

Lemma steady_execute userState w : steady w0 w -> steady w0 (snd (execute userState w)).
Proof.
  intros [Hid Hpu Hes Hgc Hal Hsr Hti Hop Hrl Hck].
  destruct (execute_rest userState w) as (Eck & Eid & Epu & Ees & Egc & Eal & Esr).
  split; rewrite ?execute_active, ?execute_timer, ?execute_operands_slot,
           ?Eck, ?Eid, ?Epu, ?Ees, ?Egc, ?Eal, ?Esr; try assumption.
  rewrite execute_read_log. destruct (active w); [|assumption].
  apply Forall_app. split; [assumption|]. repeat constructor.
Qed.

Lemma steady_elapse dt w :
  io_frozen (intent w) = true -> steady w0 w -> steady w0 (elapse dt w).
Proof.
  intros Hfrozen Hst. unfold elapse.
  pose proof (N2Z.is_nonneg dt) as Hdt.
  destruct (dissolutionTimer w) as [due|];
    [destruct (due <=? clock w + Z.of_N dt)%Z|];
    try (apply steady_set_clock; [lia|exact Hst]).
  unfold timer_callback. rewrite dissolve_after_clear.
  apply steady_set_clock.
  - rewrite dissolve_frozen by exact Hfrozen. cbn. lia.
  - apply steady_dissolve; assumption.
Qed.

Lemma steady_reachable w : reachable env i options w -> steady w0 w.
Proof.
  induction 1 as [|w c Hreach IH].
  - apply steady_manifest.
  - pose proof (inv_frozen (invariant_reachable Hreach)) as Hfrozen.
    destruct c as [userState| |dt]; cbn [step].
    + apply steady_execute, IH.
    + apply steady_dissolve; assumption.
    + apply steady_elapse; assumption.
Qed.

Lemma steady_run cs : steady w0 (run cs w0).
Proof. apply steady_reachable, run_reachable. constructor. Qed.

Lemma active_step w c : active (step w c) = true -> active w = true.
Proof.
  destruct c as [userState| |dt]; cbn [step].
  - rewrite execute_active. auto.
  - rewrite dissolve_active. discriminate.
  - unfold elapse. destruct (dissolutionTimer w) as [due|];
      [destruct (due <=? clock w + Z.of_N dt)%Z|]; cbn; auto.
    unfold timer_callback. rewrite dissolve_active. discriminate.
Qed.

Lemma step_read_log w c :
  read_log (step w c)
  = if is_Execute c && active w then read_log w ++ [preferences_path] else read_log w.
Proof.
  destruct c as [userState| |dt]; cbn [step is_Execute andb].
  - apply execute_read_log.
  - dissolve_cases w.
  - unfold elapse, timer_callback.
    destruct (dissolutionTimer w) as [due|];
      [destruct (due <=? clock w + Z.of_N dt)%Z|]; cbn [read_log set_clock];
      try reflexivity.
    dissolve_cases w.
Qed.

Lemma run_read_log_active cs :
  forall w, active (run cs w) = true ->
            length (read_log (run cs w))
            = (length (read_log w) + length (filter is_Execute cs))%nat.
Proof.
  induction cs as [|c cs IH] using rev_ind; intros w Hactive.
  - cbn. lia.
  - rewrite run_app in Hactive |- *. cbn [run fold_left] in Hactive |- *.
    pose proof (active_step _ _ Hactive) as Hbefore.
    rewrite step_read_log, Hbefore, andb_true_r.
    rewrite filter_app, length_app. cbn [filter].
    destruct (is_Execute c); rewrite ?length_app; cbn [length];
      rewrite (IH w Hbefore); lia.
Qed.

End Steady.

Lemma run_read_log_le cs :
  forall w, (length (read_log (run cs w))
             <= length (read_log w) + length (filter is_Execute cs))%nat.
Proof.
  induction cs as [|c cs IH] using rev_ind; intros w.
  - cbn. lia.
  - rewrite run_app. cbn [run fold_left].
    rewrite step_read_log, filter_app, length_app. cbn [filter].
    specialize (IH w). fold (run cs w).
    destruct (is_Execute c), (active (run cs w)); cbn [andb length];
      rewrite ?length_app; cbn [length]; lia.
Qed.

(** [X4] Through every history an instance reads nothing but
    "/preferences/calculator", and at most once per call of [execute];
    while it is still active it has read exactly once per call. *)
Theorem reads_only_the_preferences_path
        (env : Ambient) (i : CalculatorIntent) (options : option ManifestOptions)
        (cs : list call) :
  let w := run cs (manifestCalculator env i options) in
  Forall (fun path => path = "/preferences/calculator"%string) (read_log w) /\
  (length (read_log w) <= length (filter is_Execute cs))%nat /\
  (isActive w = true -> length (read_log w) = length (filter is_Execute cs)).
Proof.
  intros w. split; [|split].
  - exact (st_reads (steady_run env i options cs)).
  - exact (run_read_log_le cs (manifestCalculator env i options)).
  - intros Hactive.
    exact (run_read_log_active cs (manifestCalculator env i options) Hactive).
Qed.

(** [X5] In every state of an instance the dissolution timer is pending
    exactly while the instance is active, and then it is due at
    [manifestedAt] plus the delay the host arms for [maxLifetime]: that
    is [manifestedAt + maxLifetime] when
    [1 <= maxLifetime <= 2147483647], and [manifestedAt + 1] for any
    other lifetime.  [hasTimers()] answers [false] all the same. *)
Theorem timer_pending_iff_active
        (env : Ambient) (i : CalculatorIntent) (options : option ManifestOptions)
        (cs : list call) :
  let w := run cs (manifestCalculator env i options) in
  dissolutionTimer w
  = (if isActive w
     then Some (manifestedAt w
                + (if ((1 <=? maxLifetime w) && (maxLifetime w <=? 2147483647))%Z
                   then maxLifetime w else 1))%Z
     else None) /\
  hasTimers w = false.
Proof.
  intros w. split; [|reflexivity].
  pose proof (steady_run env i options cs) as Hst.
  pose proof (invariant_run env i options cs) as Hinv.
  fold w in Hst, Hinv.
  rewrite (st_timer Hst), (inv_manifestedAt Hinv), (inv_maxLifetime Hinv).
  unfold isActive. destruct (active w); reflexivity.
Qed.

(** [X6] No history of an instance ever reaches the hint to the
    collector or the reassignment of [this.sensitiveData]: [global.gc] is
    never called, even when it is defined, and the registry is the
    object allocated at construction, the only one ever allocated. *)
Theorem collector_hint_never_issued
        (env : Ambient) (i : CalculatorIntent) (options : option ManifestOptions)
        (cs : list call) :
  let w := run cs (manifestCalculator env i options) in
  gc_calls w = 0%nat /\ sensitiveDataRef w = 0%nat /\ allocations w = 1%nat.
Proof.
  intros w. pose proof (steady_run env i options cs) as Hst. fold w in Hst.
  rewrite (st_gc_calls Hst), (st_ref Hst), (st_allocations Hst).
  repeat split.
Qed.


(** [X8] While an instance is active, the [operands] slot of its registry
    holds the operands supplied at manifestation: [execute] never writes
    that slot.  Once the instance is inactive the slot is null. *)
Theorem operands_slot_is_the_snapshot
        (env : Ambient) (i : CalculatorIntent) (options : option ManifestOptions)
        (cs : list call) :
  let w := run cs (manifestCalculator env i options) in
  sd_operands (getSensitiveData w)
  = if isActive w then Some (operands i) else None.
Proof.
  intros w. pose proof (steady_run env i options cs) as Hst. fold w in Hst.
  exact (st_operands Hst).
Qed.

(* ===================================================================== *)
(** * Edge cases of the operations                                        *)
(* ===================================================================== *)

(** Adding to the seed [0] gives the operand back, except that [-0]
    becomes [+0]. *)
Lemma float_add_zero_l (x : float) :
  (0 + x)%float = match Prim2SF x with S754_zero true => 0%float | _ => x end.
Proof.
  apply Prim2SF_inj. rewrite add_spec. unfold SF64add.
  change (Prim2SF 0) with (S754_zero false).
  destruct (Prim2SF x) as [[|]|s| |s m e] eqn:Hx; cbn [SFadd Bool.eqb];
    try (symmetry; exact Hx); reflexivity.
Qed.

(** [X9] With a single operand, [subtract] and [multiply] return that
    operand, [divide] returns it (multiplied by the engine's
    [Math.pow(10, p)], rounded by [Math.round] and divided again when a
    precision [p] is set) and raises no error even when it is zero, and
    [add] returns it except that [-0] becomes [+0].  With more operands
    [subtract] takes the first and subtracts the others from left to
    right. *)
Theorem single_operand
        (preferences : CalculatorPreferences) (x : float) (rest : list float) :
  performSubtraction [x] preferences = Returned x /\
  performMultiplication [x] preferences = Returned x /\
  performDivision [x] preferences
  = Returned match precision preferences with
             | Some p => round_to_digits Math_round x p
             | None => x
             end /\
  performAddition [x] preferences
  = Returned match Prim2SF x with S754_zero true => 0%float | _ => x end /\
  performSubtraction (x :: rest) preferences
  = Returned (fold_left PrimFloat.sub rest x).
Proof.
  repeat split.
  - rewrite performMultiplication_fold. cbn [fold_left].
    rewrite float_mul_one_l. reflexivity.
  - rewrite performAddition_fold. cbn [fold_left].
    rewrite float_add_zero_l. reflexivity.
  - apply performSubtraction_fold.
Qed.

(** [X10] On an empty operand list [add] gives 0 and [multiply] gives 1,
    while [subtract] and [divide] fail inside [reduce]; through
    [execute] that failure is an error result with the host's message,
    not a rejection. *)
Theorem execute_on_empty_operands
        (userState : UserOwnedState) (w : World) (p : option CalculatorPreferences) :
  active w = true ->
  read userState preferences_path = Returned p ->
  io_operands (intent w) = Some [] ->
  let answer := fst (execute userState w) in
  let failed name :=
    Returned {| value := None;
                error := Some "Reduce of empty array with no initial value"%string;
                result_operation := Some name; completedAt := clock w |} in
  let returned name x :=
    Returned {| value := Some (VNumber x); error := None;
                result_operation := Some name; completedAt := clock w |} in
  (io_operation (intent w) = Some "add"%string -> answer = returned "add"%string 0%float) /\
  (io_operation (intent w) = Some "multiply"%string
   -> answer = returned "multiply"%string 1%float) /\
  (io_operation (intent w) = Some "subtract"%string
   -> answer = failed "subtract"%string) /\
  (io_operation (intent w) = Some "divide"%string -> answer = failed "divide"%string).
Proof.
  intros Hactive Hread Hargs. cbn zeta.
  repeat split; intros Hname.
  - rewrite (execute_own_entry userState w (f := performAddition)
               Hactive Hread Hname eq_refl Hargs). reflexivity.
  - rewrite (execute_own_entry userState w (f := performMultiplication)
               Hactive Hread Hname eq_refl Hargs). reflexivity.
  - rewrite (execute_own_entry userState w (f := performSubtraction)
               Hactive Hread Hname eq_refl Hargs). reflexivity.
  - rewrite (execute_own_entry userState w (f := performDivision)
               Hactive Hread Hname eq_refl Hargs). reflexivity.
Qed.

(* ===================================================================== *)
(** * The compliance scanner                                              *)
(* ===================================================================== *)

Section Scanner.

Lemma prefix_app (needle s t : string) :
  String.prefix needle s = true -> String.prefix needle (s ++ t) = true.
Proof.
  revert s. induction needle as [|c needle IH]; intros s H;
    [destruct (s ++ t)%string; reflexivity|].
  destruct s as [|d s]; [discriminate|]. cbn [String.prefix String.append] in *.
  destruct (Ascii.ascii_dec c d); [|discriminate]. apply IH, H.
Qed.

Lemma includes_app_r (needle s t : string) :
  includes needle s = true -> includes needle (s ++ t) = true.
Proof.
  induction s as [|c s IH]; intros H.
  - cbn [includes] in H. rewrite orb_false_r in H.
    destruct needle; [|discriminate]. destruct t; reflexivity.
  - cbn [includes String.append] in *. apply orb_true_iff in H as [H|H].
    + apply (prefix_app _ (String c s) t) in H. cbn [String.append] in H.
      rewrite H. reflexivity.
    + rewrite (IH H). apply orb_true_r.
Qed.

Lemma includes_app_l (needle s t : string) :
  includes needle s = true -> includes needle (t ++ s) = true.
Proof.
  intros H. induction t as [|c t IH]; [exact H|].
  cbn [includes String.append]. rewrite IH. apply orb_true_r.
Qed.

Lemma includes_inside (needle s pre post : string) :
  includes needle s = true -> includes needle (pre ++ s ++ post) = true.
Proof. intros H. apply includes_app_l, includes_app_r, H. Qed.

End Scanner.

(** [X11] The scanner finds itself: on any text that contains the three
    conditions of [detectAntiPatterns], as the text of the class does
    when the class is run as a class, all three violations are
    reported, because the string literals of the conditions are the
    substrings searched for; the class is then judged neither ephemeral
    nor respectful of user data ownership. *)
Theorem scanner_reports_its_own_text (t0 t1 t2 t3 : string) :
  let codeString :=
    (t0 ++ storage_condition ++ t1 ++ timer_condition ++ t2
        ++ tracking_condition ++ t3)%string in
  detectAntiPatterns codeString
  = [ "Uses browser storage (violates BYOS)";
      "Uses persistent timers (violates temporary manifestation)";
      "Includes tracking (violates privacy through ephemerality)" ]%string /\
  isEphemeral (validateManifestoCompliance codeString) = false /\
  respectsUserDataOwnership (validateManifestoCompliance codeString) = false.
Proof.
  intros codeString.
  assert (H1 : includes "localStorage" codeString = true)
    by (apply includes_inside; vm_compute; reflexivity).
  assert (H2 : includes "setInterval" codeString = true)
    by (do 2 apply includes_app_l; apply includes_inside; vm_compute; reflexivity).
  assert (H3 : includes "analytics" codeString = true)
    by (do 4 apply includes_app_l; apply includes_inside; vm_compute; reflexivity).
  assert (Hd : detectAntiPatterns codeString
               = [ "Uses browser storage (violates BYOS)";
                   "Uses persistent timers (violates temporary manifestation)";
                   "Includes tracking (violates privacy through ephemerality)" ]%string).
  { unfold detectAntiPatterns. rewrite H1, H2, H3. reflexivity. }
  unfold validateManifestoCompliance. rewrite Hd.
  repeat split.
Qed.

(** [X12] What the compliance record says, for any text of the class:
    [hasZeroAttentionArchitecture], [preventsContagion] and
    [enablesCompleteDissolusion] are [true] whatever the text is (no
    violation message contains "attention"); [isEphemeral] holds exactly
    when none of the five substrings occurs; and
    [respectsUserDataOwnership] fails exactly on "localStorage" or
    "sessionStorage". *)
Theorem compliance_record (codeString : string) :
  let c := validateManifestoCompliance codeString in
  hasZeroAttentionArchitecture c = true /\
  preventsContagion c = true /\
  enablesCompleteDissolusion c = true /\
  isEphemeral c
  = negb (includes "localStorage" codeString || includes "sessionStorage" codeString
          || includes "setInterval" codeString
          || (includes "analytics" codeString || includes "tracking" codeString)) /\
  respectsUserDataOwnership c
  = negb (includes "localStorage" codeString || includes "sessionStorage" codeString) /\
  violations c = detectAntiPatterns codeString.
Proof.
  cbn zeta. unfold validateManifestoCompliance, detectAntiPatterns.
  destruct (includes "localStorage" codeString || includes "sessionStorage" codeString),
    (includes "setInterval" codeString),
    (includes "analytics" codeString || includes "tracking" codeString);
    vm_compute; repeat split.
Qed.

(* ===================================================================== *)
(** * The brokers                                                         *)
(* ===================================================================== *)

Section Brokers.
Variable V : Type.

Lemma assoc_Map_set_same (path : string) (v : V) m :
  assoc path (Map_set path v m) = Some v.
Proof.
  induction m as [|[k v'] m IH]; cbn [Map_set assoc].
  - rewrite String.eqb_refl. reflexivity.
  - destruct (String.eqb path k) eqn:E; cbn [assoc].
    + rewrite String.eqb_refl. reflexivity.
    + rewrite E. exact IH.
Qed.

Lemma assoc_Map_set_other (path key : string) (v : V) m :
  key <> path -> assoc path (Map_set key v m) = assoc path m.
Proof.
  intros Hne. induction m as [|[k v'] m IH]; cbn [Map_set assoc].
  - destruct (String.eqb_spec path key); [congruence|reflexivity].
  - destruct (String.eqb_spec key k) as [->|Hk]; cbn [assoc].
    + destruct (String.eqb_spec path k); [congruence|reflexivity].
    + rewrite IH. reflexivity.
Qed.

Lemma assoc_Map_delete_same (path : string) (m : list (string * V)) :
  assoc path (Map_delete path m) = None.
Proof.
  unfold Map_delete. induction m as [|[k v'] m IH]; cbn [filter assoc fst].
  - reflexivity.
  - destruct (String.eqb path k) eqn:E; cbn [negb assoc]; rewrite ?E; exact IH.
Qed.

Lemma assoc_Map_delete_other (path key : string) (m : list (string * V)) :
  key <> path -> assoc path (Map_delete key m) = assoc path m.
Proof.
  intros Hne. unfold Map_delete.
  induction m as [|[k v'] m IH]; cbn [filter assoc fst]; [reflexivity|].
  destruct (String.eqb_spec key k) as [->|Hk]; cbn [negb assoc].
  - destruct (String.eqb_spec path k); [congruence|exact IH].
  - rewrite IH. reflexivity.
Qed.

Variable release : Broker V -> Broker V.
Hypothesis release_storage : forall b, storage (release b) = storage b.

Lemma untouched_step path (b : Broker V) e :
  touches path e = false ->
  assoc path (storage (broker_step release b e)) = assoc path (storage b).
Proof.
  destruct e as [p|p v|p|]; cbn [touches broker_step broker_read broker_write
                                  broker_delete acquire storage snd]; intros H.
  - reflexivity.
  - apply assoc_Map_set_other. apply String.eqb_neq. exact H.
  - apply assoc_Map_delete_other. apply String.eqb_neq. exact H.
  - rewrite release_storage. reflexivity.
Qed.

Lemma untouched_run path es :
  forall b : Broker V,
    forallb (fun e => negb (touches path e)) es = true ->
    assoc path (storage (broker_run release es b)) = assoc path (storage b).
Proof.
  induction es as [|e es IH]; intros b H; cbn [broker_run fold_left forallb] in *.
  - reflexivity.
  - apply andb_prop in H as [He Hes]. apply negb_true_iff in He.
    unfold broker_run in IH. rewrite (IH _ Hes). apply untouched_step, He.
Qed.

End Brokers.

Lemma release_mock_storage V (b : Broker V) : storage (release_mock b) = storage b.
Proof. unfold release_mock. destruct (releases b); reflexivity. Qed.

Lemma release_web_storage V (b : Broker V) : storage (release_web b) = storage b.
Proof. unfold release_web. destruct (releases b); reflexivity. Qed.

(** [X13] Read your writes: after [write(path, v)], a [read(path)]
    returns [v], whatever reads, release callbacks, and writes or
    deletes at other paths came in between; this holds for the test
    broker and for the web broker. *)
Theorem read_after_write
        (V : Type) (path : string) (v : V) (es : list (broker_event V)) (b : Broker V) :
  forallb (fun e => negb (touches path e)) es = true ->
  fst (broker_read path (broker_run release_mock es (broker_write path v b))) = Some v /\
  fst (broker_read path (broker_run release_web es (broker_write path v b))) = Some v.
Proof.
  intros H. cbn [broker_read fst].
  rewrite (@untouched_run V release_mock (@release_mock_storage V) path es _ H),
          (@untouched_run V release_web (@release_web_storage V) path es _ H).
  cbn [broker_write acquire storage]. rewrite assoc_Map_set_same. split; reflexivity.
Qed.

Lemma read_after_write_witness :
  fst (broker_read "/preferences/calculator"
         (broker_run release_mock
            [BrokerRead "/preferences/calculator"; BrokerWrite "/other" 7%nat;
             BrokerTimer; BrokerDelete "/other"]
            (broker_write "/preferences/calculator" 2%nat (new_broker nat))))
  = Some 2%nat /\
  fst (broker_read "/preferences/calculator"
         (broker_run release_web
            [BrokerRead "/preferences/calculator"; BrokerWrite "/other" 7%nat;
             BrokerTimer; BrokerDelete "/other"]
            (broker_write "/preferences/calculator" 2%nat (new_broker nat))))
  = Some 2%nat.
Proof.
  exact (read_after_write "/preferences/calculator" 2%nat
           [BrokerRead "/preferences/calculator"; BrokerWrite "/other" 7%nat;
            BrokerTimer; BrokerDelete "/other"]
           (new_broker nat) eq_refl).
Defined.

(** [X14] After [delete(path)], and in a new broker, a [read(path)]
    returns [undefined] until the path is written again, whatever
    happens at other paths. *)
Theorem read_after_delete
        (V : Type) (path : string) (es : list (broker_event V)) (b : Broker V) :
  forallb (fun e => negb (touches path e)) es = true ->
  fst (broker_read path (broker_run release_mock es (broker_delete path b))) = None /\
  fst (broker_read path (broker_run release_web es (broker_delete path b))) = None /\
  fst (broker_read path (broker_run release_mock es (new_broker V))) = None /\
  fst (broker_read path (broker_run release_web es (new_broker V))) = None.
Proof.
  intros H. cbn [broker_read fst].
  rewrite !(@untouched_run V release_mock (@release_mock_storage V) path es _ H),
          !(@untouched_run V release_web (@release_web_storage V) path es _ H).
  cbn [broker_delete acquire storage new_broker assoc].
  rewrite assoc_Map_delete_same. repeat split.
Qed.

Lemma read_after_delete_witness :
  fst (broker_read "/a" (broker_run release_mock [BrokerWrite "/b" 1%nat; BrokerTimer]
                           (broker_delete "/a" (broker_write "/a" 5%nat (new_broker nat)))))
  = None.
Proof.
  exact (proj1 (read_after_delete "/a" [BrokerWrite "/b" 1%nat; BrokerTimer]
                  (broker_write "/a" 5%nat (new_broker nat)) eq_refl)).
Defined.

(** ** Handle accounting *)

Section Handles.
Variable V : Type.

Lemma balanced_step_mock (b : Broker V) e :
  balanced b -> balanced (broker_step release_mock b e).
Proof.
  unfold balanced. intros H.
  destruct e as [p|p v|p|];
    cbn [broker_step broker_read broker_write broker_delete acquire snd
         handleCount releases]; try lia.
  unfold release_mock. destruct (releases b) as [|n] eqn:E;
    cbn [handleCount releases]; lia.
Qed.

Lemma step_web_is_step_mock (b : Broker V) e :
  balanced b -> broker_step release_web b e = broker_step release_mock b e.
Proof.
  unfold balanced. intros H. destruct e as [p|p v|p|]; try reflexivity.
  cbn [broker_step]. unfold release_web, release_mock.
  destruct (releases b) as [|n]; [reflexivity|].
  rewrite Z.max_r by lia. reflexivity.
Qed.

Lemma balanced_run_mock es :
  forall b : Broker V, balanced b -> balanced (broker_run release_mock es b).
Proof.
  induction es as [|e es IH]; intros b H; cbn [broker_run fold_left].
  - exact H.
  - apply IH, balanced_step_mock, H.
Qed.

Lemma run_web_is_run_mock es :
  forall b : Broker V,
    balanced b -> broker_run release_web es b = broker_run release_mock es b.
Proof.
  induction es as [|e es IH]; intros b H; cbn [broker_run fold_left].
  - reflexivity.
  - rewrite (step_web_is_step_mock e H). apply IH, balanced_step_mock, H.
Qed.

Lemma releases_after_accesses es :
  forall b : Broker V,
    forallb is_access es = true ->
    releases (broker_run release_mock es b) = (releases b + length es)%nat.
Proof.
  induction es as [|e es IH]; intros b H; cbn [broker_run fold_left forallb length] in *.
  - lia.
  - apply andb_prop in H as [He Hes]. unfold broker_run in IH. rewrite (IH _ Hes).
    destruct e as [p|p v|p|]; try discriminate;
      cbn [broker_step broker_read broker_write broker_delete acquire snd releases];
      lia.
Qed.

Lemma releases_after_timers n :
  forall b : Broker V,
    releases (broker_run release_mock (repeat BrokerTimer n) b) = (releases b - n)%nat.
Proof.
  induction n as [|n IH]; intros b; cbn [repeat broker_run fold_left].
  - lia.
  - unfold broker_run in IH. rewrite IH. cbn [broker_step].
    unfold release_mock. destruct (releases b) eqn:E; cbn [releases]; rewrite ?E; lia.
Qed.

Lemma broker_run_app release es1 es2 (b : Broker V) :
  broker_run release (es1 ++ es2) b = broker_run release es2 (broker_run release es1 b).
Proof. unfold broker_run. apply fold_left_app. Qed.

End Handles.

Lemma balanced_new V : balanced (new_broker V).
Proof. reflexivity. Qed.

(** [X15] In the test broker and in the web broker, through any sequence
    of reads, writes, deletes and release callbacks, [activeHandles()]
    is the number of accesses whose release callback has not run yet;
    it is never negative, and it is 0 whenever no callback is pending. *)
Theorem activeHandles_counts_pending_releases
        (V : Type) (es : list (broker_event V)) :
  let mock := broker_run release_mock es (new_broker V) in
  let web := broker_run release_web es (new_broker V) in
  activeHandles mock = Z.of_nat (releases mock) /\
  activeHandles web = Z.of_nat (releases web) /\
  (0 <= activeHandles mock)%Z /\
  (releases mock = 0%nat -> activeHandles mock = 0%Z).
Proof.
  cbn zeta. rewrite (run_web_is_run_mock es (balanced_new V)).
  pose proof (balanced_run_mock es (balanced_new V)) as H.
  unfold balanced, activeHandles in *. repeat split; try exact H; lia.
Qed.

(** [X16] After [n] accesses [activeHandles()] is [n]; it is back to 0
    once the [n] release callbacks have run, and not before the timers
    run. *)
Theorem activeHandles_returns_to_zero
        (V : Type) (accesses : list (broker_event V)) :
  forallb is_access accesses = true ->
  activeHandles (broker_run release_mock accesses (new_broker V))
  = Z.of_nat (length accesses) /\
  activeHandles (broker_run release_mock
                   (accesses ++ repeat BrokerTimer (length accesses)) (new_broker V))
  = 0%Z.
Proof.
  intros H. split.
  - pose proof (balanced_run_mock accesses (balanced_new V)) as Hb.
    unfold balanced in Hb. unfold activeHandles. rewrite Hb.
    rewrite (releases_after_accesses accesses _ H). reflexivity.
  - pose proof (balanced_run_mock (accesses ++ repeat BrokerTimer (length accesses))
                  (balanced_new V)) as Hb.
    unfold balanced in Hb. unfold activeHandles. rewrite Hb.
    rewrite broker_run_app, releases_after_timers,
      (releases_after_accesses accesses _ H).
    cbn [new_broker releases]. lia.
Qed.

Lemma activeHandles_returns_to_zero_witness :
  activeHandles (broker_run release_mock
                   [BrokerWrite "/preferences/calculator" 2%nat;
                    BrokerRead "/preferences/calculator"] (new_broker nat))
  = 2%Z /\
  activeHandles (broker_run release_mock
                   ([BrokerWrite "/preferences/calculator" 2%nat;
                     BrokerRead "/preferences/calculator"]
                    ++ repeat BrokerTimer 2) (new_broker nat))
  = 0%Z.
Proof.
  exact (activeHandles_returns_to_zero
           [BrokerWrite "/preferences/calculator" 2%nat;
            BrokerRead "/preferences/calculator"] eq_refl).
Defined.

(** [X17] The web broker and the test broker cannot be told apart: on
    every sequence of events they are in the same state, so the clamp
    [Math.max(0, handleCount - 1)] of the web broker never applies. *)
Theorem web_broker_is_test_broker (V : Type) (es : list (broker_event V)) :
  broker_run release_web es (new_broker V) = broker_run release_mock es (new_broker V).
Proof. apply run_web_is_run_mock, balanced_new. Qed.

(** [X18] The preferences [execute] applies are the ones last written to
    the broker at "/preferences/calculator": the operation is called with
    them, and with the empty preferences when the broker is new. *)
Theorem execute_uses_written_preferences
        (b : Broker CalculatorPreferences) (preferences : CalculatorPreferences)
        (es : list (broker_event CalculatorPreferences))
        (w : World) (name : string) (f : CalculationFunction) (xs : list float) :
  forallb (fun e => negb (touches preferences_path e)) es = true ->
  active w = true ->
  io_operation (intent w) = Some name ->
  assoc name operations = Some f ->
  io_operands (intent w) = Some xs ->
  let answer (o : outcome float) :=
    match o with
    | Returned x =>
        Returned {| value := Some (VNumber x); error := None;
                    result_operation := Some name; completedAt := clock w |}
    | Thrown e =>
        Returned {| value := None;
                    error := Some (if instanceof_Error e then message_of e
                                   else "Unknown error"%string);
                    result_operation := Some name; completedAt := clock w |}
    end in
  fst (execute (as_UserOwnedState
                  (broker_run release_mock es
                     (broker_write preferences_path preferences b))) w)
  = answer (f xs preferences) /\
  fst (execute (as_UserOwnedState (broker_run release_mock es (new_broker _))) w)
  = answer (f xs no_preferences).
Proof.
  intros Hes Hactive Hname Hown Hargs. cbn zeta.
  pose proof (@untouched_run _ release_mock (@release_mock_storage _)
                preferences_path es) as Hkeep.
  assert (Hw : read (as_UserOwnedState
                       (broker_run release_mock es
                          (broker_write preferences_path preferences b)))
                    preferences_path = Returned (Some preferences)).
  { cbn [as_UserOwnedState read broker_read fst].
    rewrite (Hkeep _ Hes). cbn [broker_write acquire storage].
    rewrite assoc_Map_set_same. reflexivity. }
  assert (Hn : read (as_UserOwnedState (broker_run release_mock es (new_broker _)))
                    preferences_path = Returned None).
  { cbn [as_UserOwnedState read broker_read fst].
    rewrite (Hkeep _ Hes). reflexivity. }
  split.
  - rewrite (execute_own_entry _ w Hactive Hw Hname Hown Hargs).
    cbn [or_empty]. destruct (f xs preferences); reflexivity.
  - rewrite (execute_own_entry _ w Hactive Hn Hname Hown Hargs).
    cbn [or_empty]. destruct (f xs no_preferences); reflexivity.
Qed.

(* ===================================================================== *)
(** * The DOM cleanup tracker                                             *)
(* ===================================================================== *)

Section Tracker.

Lemma Registration_eqb_spec (a b : Registration) :
  reflect (a = b) (Registration_eqb a b).
Proof.
  destruct a as [ta ya la], b as [tb yb lb]. unfold Registration_eqb.
  cbn [reg_target reg_type reg_listener].
  destruct (Nat.eqb_spec ta tb) as [->|Ht]; cbn [andb];
    [|constructor; congruence].
  destruct (String.eqb_spec ya yb) as [->|Hy]; cbn [andb];
    [|constructor; congruence].
  destruct (Nat.eqb_spec la lb) as [->|Hl]; constructor; congruence.
Qed.

Lemma filter_filter {A} (f g : A -> bool) l :
  filter f (filter g l) = filter (fun x => g x && f x) l.
Proof.
  induction l as [|x l IH]; cbn [filter]; [reflexivity|].
  destruct (g x); cbn [filter andb]; rewrite IH; reflexivity.
Qed.

Lemma filter_true {A} (f : A -> bool) l :
  (forall x, f x = true) -> filter f l = l.
Proof.
  intros H. induction l as [|x l IH]; cbn [filter]; [reflexivity|].
  rewrite H, IH. reflexivity.
Qed.

Lemma filter_none_match {A} (g : A -> bool) l :
  existsb g l = false -> filter (fun x => negb (g x)) l = l.
Proof.
  induction l as [|x l IH]; cbn [filter existsb]; [reflexivity|].
  intros H. apply orb_false_iff in H as [Hx Hl].
  rewrite Hx, (IH Hl). reflexivity.
Qed.

Lemma existsb_filter {A} (f g : A -> bool) l :
  existsb f (filter g l) = existsb (fun x => g x && f x) l.
Proof.
  induction l as [|x l IH]; cbn [filter existsb]; [reflexivity|].
  destruct (g x); cbn [existsb andb orb]; rewrite IH; reflexivity.
Qed.

Lemma existsb_guard {A} (f h : A -> bool) (c : bool) l :
  (forall x, f x = true -> h x = c) ->
  existsb (fun x => h x && f x) l = existsb f l && c.
Proof.
  intros H. induction l as [|x l IH]; cbn [existsb]; [reflexivity|].
  rewrite IH. destruct (f x) eqn:E.
  - rewrite (H x E). destruct c, (existsb f l); reflexivity.
  - rewrite andb_false_r. reflexivity.
Qed.

(** One pass of the first loop of [cleanup] removes the link of the
    element, whether the guard on [parentNode] passes or not. *)
Lemma detach_step (e : Element) (p : Page) :
  (if has_parent e p then removeChild e p else p)
  = {| parentNode := filter (fun link => negb (Nat.eqb e (fst link))) (parentNode p);
       registered := registered p |}.
Proof.
  unfold has_parent.
  destruct (existsb (fun link => Nat.eqb e (fst link)) (parentNode p)) eqn:E;
    [reflexivity|].
  rewrite (filter_none_match _ _ E). destruct p; reflexivity.
Qed.

Lemma detach_all es :
  forall p,
    fold_left (fun p e => if has_parent e p then removeChild e p else p) es p
    = {| parentNode :=
           filter (fun link => negb (existsb (fun e' => Nat.eqb e' (fst link)) es))
                  (parentNode p);
         registered := registered p |}.
Proof.
  induction es as [|e es IH]; intros p; cbn [fold_left existsb].
  - rewrite filter_true by reflexivity. destruct p; reflexivity.
  - rewrite detach_step, IH. cbn [parentNode registered].
    rewrite filter_filter. f_equal. apply filter_ext. intros link.
    rewrite negb_orb. reflexivity.
Qed.

Lemma silence_all rs :
  forall p,
    fold_left (fun p r => page_removeEventListener r p) rs p
    = {| parentNode := parentNode p;
         registered :=
           filter (fun r => negb (existsb (fun r' => Registration_eqb r' r) rs))
                  (registered p) |}.
Proof.
  induction rs as [|r rs IH]; intros p; cbn [fold_left existsb].
  - rewrite filter_true by reflexivity. destruct p; reflexivity.
  - rewrite IH. cbn [page_removeEventListener parentNode registered].
    rewrite filter_filter. f_equal. apply filter_ext. intros r'.
    rewrite negb_orb. reflexivity.
Qed.

Lemma cleanup_exact (p : Page) (t : DOMCleanupTracker) :
  cleanup (p, t)
  = ({| parentNode := filter (fun link => negb (tracked_element (fst link) t))
                             (parentNode p);
        registered := filter (fun r => negb (tracked_listener r t)) (registered p) |},
     createDOMCleanupTracker).
Proof.
  unfold cleanup. cbn [fst snd]. rewrite detach_all, silence_all. reflexivity.
Qed.

(** Registering through the tracker: the tracker remembers the
    registrations in order; the page gains at most those. *)
Lemma track_all_spec rs :
  forall p t,
    let s := track_all rs (p, t) in
    parentNode (fst s) = parentNode p /\
    elementsToClean (snd s) = elementsToClean t /\
    listenersToRemove (snd s) = listenersToRemove t ++ rs /\
    exists extra, registered (fst s) = registered p ++ extra /\
                  forall r, In r extra -> In r rs.
Proof.
  induction rs as [|r rs IH]; intros p t; cbn zeta.
  - cbn. rewrite app_nil_r. repeat split. exists []. rewrite app_nil_r.
    split; [reflexivity|]. intros r [].
  - change (track_all (r :: rs) (p, t))
      with (track_all rs (addEventListener r (p, t))).
    unfold addEventListener. cbn [fst snd].
    specialize (IH (page_addEventListener r p)
                   {| elementsToClean := elementsToClean t;
                      listenersToRemove := listenersToRemove t ++ [r] |}).
    cbn zeta in IH. destruct IH as (Hp & He & Hl & extra & Hr & Hin).
    cbn [page_addEventListener parentNode registered elementsToClean
         listenersToRemove] in Hp, He, Hl, Hr.
    repeat split; try assumption.
    + rewrite Hl, <- app_assoc. reflexivity.
    + destruct (is_registered r p).
      * exists extra. split; [exact Hr|]. intros r' H. right. apply Hin, H.
      * exists (r :: extra). split.
        -- rewrite Hr, <- app_assoc. reflexivity.
        -- intros r' [<-|H]; [left; reflexivity|right; apply Hin, H].
Qed.

End Tracker.

(** [X19] [cleanup()] removes from the page exactly the parent links of
    the tracked elements and the registrations of the tracked listeners,
    keeps everything else in place and in order, and leaves the tracker
    empty; a second [cleanup()] changes nothing. *)
Theorem cleanup_removes_what_was_tracked (p : Page) (t : DOMCleanupTracker) :
  cleanup (p, t)
  = ({| parentNode := filter (fun link => negb (tracked_element (fst link) t))
                             (parentNode p);
        registered := filter (fun r => negb (tracked_listener r t)) (registered p) |},
     createDOMCleanupTracker) /\
  (forall e, has_parent e (fst (cleanup (p, t)))
             = has_parent e p && negb (tracked_element e t)) /\
  (forall r, is_registered r (fst (cleanup (p, t)))
             = is_registered r p && negb (tracked_listener r t)) /\
  cleanup (cleanup (p, t)) = cleanup (p, t).
Proof.
  rewrite cleanup_exact. cbn [fst]. repeat split.
  - intros e. unfold has_parent. cbn [parentNode].
    rewrite existsb_filter. apply existsb_guard.
    intros link H. apply Nat.eqb_eq in H. subst e. reflexivity.
  - intros r. unfold is_registered. cbn [registered].
    rewrite existsb_filter. apply existsb_guard.
    intros r' H. destruct (Registration_eqb_spec r r'); [subst; reflexivity|discriminate].
Qed.

Section RoundTrip.

Lemma filter_In_true {A} (f : A -> bool) l :
  (forall x, In x l -> f x = true) -> filter f l = l.
Proof.
  induction l as [|x l IH]; intros H; cbn [filter]; [reflexivity|].
  rewrite (H x (or_introl eq_refl)), IH; [reflexivity|].
  intros y Hy. apply H. right. exact Hy.
Qed.

Lemma filter_In_false {A} (f : A -> bool) l :
  (forall x, In x l -> f x = false) -> filter f l = [].
Proof.
  induction l as [|x l IH]; intros H; cbn [filter]; [reflexivity|].
  rewrite (H x (or_introl eq_refl)). apply IH.
  intros y Hy. apply H. right. exact Hy.
Qed.

Lemma listed_iff (r : Registration) rs :
  existsb (fun r' => Registration_eqb r' r) rs = true <-> In r rs.
Proof.
  rewrite existsb_exists. split.
  - intros (r' & Hin & Heq). destruct (Registration_eqb_spec r' r); [subst; exact Hin|discriminate].
  - intros Hin. exists r. split; [exact Hin|].
    destruct (Registration_eqb_spec r r); [reflexivity|contradiction].
Qed.

Lemma is_registered_iff (r : Registration) (p : Page) :
  is_registered r p = true <-> In r (registered p).
Proof.
  unfold is_registered. rewrite existsb_exists. split.
  - intros (r' & Hin & Heq). destruct (Registration_eqb_spec r r'); [subst; exact Hin|discriminate].
  - intros Hin. exists r. split; [exact Hin|].
    destruct (Registration_eqb_spec r r); [reflexivity|contradiction].
Qed.

End RoundTrip.

(** [X20] Registering listeners through a new tracker and then calling
    [cleanup()] leaves the page exactly as it was, provided none of them
    was already registered on the page.  (A listener that other code had
    registered before is removed as well.) *)
Theorem track_then_cleanup_restores_page (p : Page) (rs : list Registration) :
  forallb (fun r => negb (is_registered r p)) rs = true ->
  cleanup (track_all rs (p, createDOMCleanupTracker)) = (p, createDOMCleanupTracker).
Proof.
  intros Hnew.
  pose proof (track_all_spec rs p createDOMCleanupTracker) as Hspec. cbn zeta in Hspec.
  destruct (track_all rs (p, createDOMCleanupTracker)) as [p' t'].
  cbn [fst snd createDOMCleanupTracker elementsToClean listenersToRemove app] in Hspec.
  destruct Hspec as (Hparent & Helements & Hlisteners & extra & Hregistered & Hextra).
  rewrite cleanup_exact. f_equal.
  unfold tracked_element, tracked_listener. rewrite Helements, Hlisteners.
  cbn [existsb negb]. rewrite filter_true by reflexivity.
  rewrite Hparent, Hregistered, filter_app.
  rewrite filter_In_true, filter_In_false, app_nil_r; [destruct p; reflexivity| |].
  - intros r Hin. apply negb_false_iff. apply listed_iff, Hextra, Hin.
  - intros r Hin. apply negb_true_iff.
    destruct (existsb (fun r' => Registration_eqb r' r) rs) eqn:E; [|reflexivity].
    apply listed_iff in E. rewrite forallb_forall in Hnew.
    specialize (Hnew r E). apply negb_true_iff in Hnew.
    apply is_registered_iff in Hin. congruence.
Qed.

Lemma track_then_cleanup_restores_page_witness :
  cleanup (track_all
             [ {| reg_target := 1; reg_type := "click"; reg_listener := 7 |};
               {| reg_target := 1; reg_type := "click"; reg_listener := 7 |};
               {| reg_target := 2; reg_type := "submit"; reg_listener := 8 |} ]
             ({| parentNode := [(3, 1)%nat];
                 registered := [ {| reg_target := 1; reg_type := "click";
                                    reg_listener := 9 |} ] |},
              createDOMCleanupTracker))
  = ({| parentNode := [(3, 1)%nat];
        registered := [ {| reg_target := 1; reg_type := "click"; reg_listener := 9 |} ] |},
     createDOMCleanupTracker).
Proof.
  exact (track_then_cleanup_restores_page
           {| parentNode := [(3, 1)%nat];
              registered := [ {| reg_target := 1; reg_type := "click";
                                 reg_listener := 9 |} ] |}
           [ {| reg_target := 1; reg_type := "click"; reg_listener := 7 |};
             {| reg_target := 1; reg_type := "click"; reg_listener := 7 |};
             {| reg_target := 2; reg_type := "submit"; reg_listener := 8 |} ]
           eq_refl).
Defined.

(* ===================================================================== *)
(** * The web calculator                                                  *)
(* ===================================================================== *)

Ltac run_web :=
  cbv beta iota zeta delta
    [web_dissolve web_execute in_core on_core run_cleanup web_timer_callback
     secureCleanup null_every_key forEach clearTimeout
     bind try_catch ret throw get modify lift];
  cbn [fst snd negb core page domCleanup
       clock gc_exposed gc_calls read_log allocations id purpose manifestedAt
       maxLifetime active dissolutionTimer ephemeralState sensitiveData
       sensitiveDataRef intent set_clock set_gc_calls set_read_log set_active
       set_dissolutionTimer set_sensitiveData assign_sensitiveData set_intent].

Section WebDissolve.

(** The guard: on an inactive instance [dissolve()] does nothing. *)
Lemma web_dissolve_inactive (w : WebWorld) :
  active (core w) = false -> web_dissolve w = (Returned tt, w).
Proof. intros H. run_web. rewrite H. reflexivity. Qed.

Lemma web_dissolve_frame (w : WebWorld) :
  active (core w) = true ->
  let c' := core (snd (web_dissolve w)) in
  active c' = false /\ dissolutionTimer c' = None /\ clock c' = clock (core w) /\
  manifestedAt c' = manifestedAt (core w) /\ maxLifetime c' = maxLifetime (core w).
Proof.
  intros H. cbn zeta. run_web. rewrite H. cbn [negb].
  destruct (cleanup (page w, domCleanup w)) as [p t]. run_web.
  destruct (io_frozen (intent (core w))); run_web; [repeat split|].
  destruct (gc_exposed (core w)); run_web; repeat split.
Qed.

Lemma web_dissolve_unfrozen (w : WebWorld) :
  active (core w) = true ->
  io_frozen (intent (core w)) = false ->
  let w' := snd (web_dissolve w) in
  fst (web_dissolve w) = Returned tt /\
  intent (core w') = {| io_operation := None; io_operands := None; io_frozen := false |} /\
  sensitiveData (core w') = all_null /\
  sensitiveDataRef (core w') = allocations (core w) /\
  gc_calls (core w')
  = (if gc_exposed (core w) then S (gc_calls (core w)) else gc_calls (core w)) /\
  (page w', domCleanup w') = cleanup (page w, domCleanup w).
Proof.
  intros Hactive Hfrozen. cbn zeta. run_web. rewrite Hactive. cbn [negb].
  destruct (cleanup (page w, domCleanup w)) as [p t]. run_web.
  rewrite Hfrozen. run_web.
  destruct (gc_exposed (core w)); run_web; repeat split.
Qed.

Lemma web_dissolve_frozen (w : WebWorld) :
  active (core w) = true ->
  io_frozen (intent (core w)) = true ->
  let w' := snd (web_dissolve w) in
  fst (web_dissolve w) = Thrown frozen_type_error /\
  intent (core w') = intent (core w) /\
  sensitiveData (core w') = all_null /\
  sensitiveDataRef (core w') = sensitiveDataRef (core w) /\
  allocations (core w') = allocations (core w) /\
  gc_calls (core w') = gc_calls (core w) /\
  (page w', domCleanup w') = cleanup (page w, domCleanup w).
Proof.
  intros Hactive Hfrozen. cbn zeta. run_web. rewrite Hactive. cbn [negb].
  destruct (cleanup (page w, domCleanup w)) as [p t]. run_web.
  rewrite Hfrozen. run_web. repeat split.
Qed.

Lemma web_execute_core userState (w : WebWorld) :
  core (snd (web_execute userState w)) = snd (execute userState (core w)).
Proof.
  unfold web_execute, in_core. destruct (execute userState (core w)). reflexivity.
Qed.

End WebDissolve.

(** [X21] In the web calculator [dissolve()] on an active instance whose
    intent the caller did not freeze returns normally and nulls the
    caller's intent: its operation and operands are null afterwards.
    The registry becomes a new object with three null slots, the
    collector hint is issued when [gc] is available, and the tracker's
    [cleanup()] has run. *)
Theorem web_dissolve_nulls_the_intent (w : WebWorld) :
  active (core w) = true ->
  io_frozen (intent (core w)) = false ->
  let w' := snd (web_dissolve w) in
  fst (web_dissolve w) = Returned tt /\
  web_isActive w' = false /\
  dissolutionTimer (core w') = None /\
  intent (core w') = {| io_operation := None; io_operands := None; io_frozen := false |} /\
  web_getSensitiveData w' = all_null /\
  sensitiveDataRef (core w') = allocations (core w) /\
  gc_calls (core w')
  = (if gc_exposed (core w) then S (gc_calls (core w)) else gc_calls (core w)) /\
  (page w', domCleanup w') = cleanup (page w, domCleanup w).
Proof.
  intros Hactive Hfrozen. cbn zeta.
  destruct (web_dissolve_unfrozen w Hactive Hfrozen) as (H1 & H2 & H3 & H4 & H5 & H6).
  destruct (web_dissolve_frame w Hactive) as (Ha & Ht & _).
  unfold web_isActive, web_getSensitiveData. repeat split; assumption.
Qed.

Lemma web_dissolve_nulls_the_intent_witness :
  fst (web_dissolve
         (web_manifestCalculator sample_env sample_intent false
            createDOMCleanupTracker {| parentNode := []; registered := [] |} None))
  = Returned tt /\
  intent (core (snd (web_dissolve
         (web_manifestCalculator sample_env sample_intent false
            createDOMCleanupTracker {| parentNode := []; registered := [] |} None))))
  = {| io_operation := None; io_operands := None; io_frozen := false |}.
Proof.
  destruct (web_dissolve_nulls_the_intent
              (web_manifestCalculator sample_env sample_intent false
                 createDOMCleanupTracker {| parentNode := []; registered := [] |} None)
              eq_refl eq_refl) as (H1 & _ & _ & H2 & _).
  split; [exact H1|exact H2].
Defined.

(** [X22] In the web calculator a second [dissolve()] is a no-op: it
    returns normally and leaves the instance, the page and the tracker
    exactly as the first call left them, whether the first call
    returned or threw. *)
Theorem web_dissolve_twice (w : WebWorld) :
  web_dissolve (snd (web_dissolve w)) = (Returned tt, snd (web_dissolve w)).
Proof.
  apply web_dissolve_inactive.
  destruct (active (core w)) eqn:Hactive.
  - apply (web_dissolve_frame w Hactive).
  - rewrite (web_dissolve_inactive w Hactive). exact Hactive.
Qed.

(** [X23] When the caller froze the intent, [dissolve()] of the web
    calculator throws on it as the first calculator does: the instance
    is inactive, the tracker's [cleanup()] has run and the three slots
    are null, but the intent is intact, no hint is issued and
    [this.sensitiveData] is not reassigned, and since later calls are
    stopped by the guard, never will be. *)
Theorem web_dissolve_on_frozen_intent (w : WebWorld) :
  active (core w) = true ->
  io_frozen (intent (core w)) = true ->
  let w' := snd (web_dissolve w) in
  (exists message, fst (web_dissolve w) = Thrown (TypeError message)) /\
  web_isActive w' = false /\
  intent (core w') = intent (core w) /\
  web_getSensitiveData w' = all_null /\
  sensitiveDataRef (core w') = sensitiveDataRef (core w) /\
  gc_calls (core w') = gc_calls (core w) /\
  (page w', domCleanup w') = cleanup (page w, domCleanup w) /\
  snd (web_dissolve w') = w'.
Proof.
  intros Hactive Hfrozen. cbn zeta.
  destruct (web_dissolve_frozen w Hactive Hfrozen) as (H1 & H2 & H3 & H4 & H5 & H6 & H7).
  destruct (web_dissolve_frame w Hactive) as (Ha & _).
  unfold web_isActive, web_getSensitiveData.
  repeat split; try assumption.
  - eexists. exact H1.
  - rewrite (web_dissolve_inactive _ Ha). reflexivity.
Qed.

Lemma web_dissolve_on_frozen_intent_witness :
  web_isActive
    (snd (web_dissolve
            (web_manifestCalculator sample_env sample_intent true
               createDOMCleanupTracker {| parentNode := []; registered := [] |} None)))
  = false /\
  intent (core (snd (web_dissolve
            (web_manifestCalculator sample_env sample_intent true
               createDOMCleanupTracker {| parentNode := []; registered := [] |} None))))
  = {| io_operation := Some "add"%string;
       io_operands := Some [1%float; 2%float]; io_frozen := true |}.
Proof.
  destruct (web_dissolve_on_frozen_intent
              (web_manifestCalculator sample_env sample_intent true
                 createDOMCleanupTracker {| parentNode := []; registered := [] |} None)
              eq_refl eq_refl) as (_ & H1 & H2 & _).
  split; [exact H1|exact H2].
Defined.

Section WebSteady.
Variable w0 : WebWorld.

Lemma web_steady_set_clock t w :
  (clock (core w) <= t)%Z ->
  web_steady w0 w -> web_steady w0 (on_core (set_clock t) w).
Proof.
  intros Ht [HmA HmL Hti Hck].
  split; cbn [core on_core clock manifestedAt maxLifetime dissolutionTimer active
              set_clock]; try assumption.
  lia.
Qed.

Lemma web_steady_dissolve w : web_steady w0 w -> web_steady w0 (snd (web_dissolve w)).
Proof.
  intros Hst. destruct (active (core w)) eqn:Hactive.
  - destruct Hst as [HmA HmL Hti Hck].
    destruct (web_dissolve_frame w Hactive) as (Ha & Ht & Hc & HA & HL).
    split; rewrite ?Ha, ?Ht, ?Hc, ?HA, ?HL; try assumption; reflexivity.
  - rewrite (web_dissolve_inactive w Hactive). exact Hst.
Qed.

Lemma web_steady_execute userState w :
  web_steady w0 w -> web_steady w0 (snd (web_execute userState w)).
Proof.
  intros [HmA HmL Hti Hck].
  destruct (execute_rest userState (core w)) as (Eck & _).
  split; rewrite web_execute_core, ?execute_manifestedAt, ?execute_maxLifetime,
           ?execute_timer, ?execute_active, ?Eck; assumption.
Qed.

Lemma web_steady_elapse dt w : web_steady w0 w -> web_steady w0 (web_elapse dt w).
Proof.
  intros Hst. unfold web_elapse.
  pose proof (N2Z.is_nonneg dt) as Hdt.
  destruct (dissolutionTimer (core w)) as [due|] eqn:Htimer;
    [destruct (due <=? clock (core w) + Z.of_N dt)%Z|];
    try (apply web_steady_set_clock; [lia|exact Hst]).
  pose proof (ws_timer Hst) as Hti. rewrite Htimer in Hti.
  assert (Hactive : active (core (on_core (set_dissolutionTimer None) w)) = true).
  { cbn [core on_core active set_dissolutionTimer].
    destruct (active (core w)); [reflexivity|discriminate]. }
  unfold web_timer_callback.
  destruct (web_dissolve_frame _ Hactive) as (Ha & Ht & Hc & HA & HL).
  cbn [core on_core clock manifestedAt maxLifetime set_dissolutionTimer] in Hc, HA, HL.
  destruct Hst as [HmA HmL _ Hck].
  split; cbn [core on_core clock manifestedAt maxLifetime dissolutionTimer active
              set_clock]; rewrite ?Ha, ?Ht, ?HA, ?HL; try assumption; try reflexivity.
  lia.
Qed.




Lemma web_steady_run cs :
  forall w, web_steady w0 w -> web_steady w0 (web_run cs w).
Proof.
  induction cs as [|c cs IH]; intros w Hst; cbn [web_run fold_left].
  - exact Hst.
  - apply IH. destruct c as [userState| |dt]; cbn [web_step].
    + apply web_steady_execute, Hst.
    + apply web_steady_dissolve, Hst.
    + apply web_steady_elapse, Hst.
Qed.

End WebSteady.

Lemma web_steady_manifest env i frozen tracker p options :
  web_steady (web_manifestCalculator env i frozen tracker p options)
             (web_manifestCalculator env i frozen tracker p options).
Proof. split; reflexivity. Qed.


(** [X25] In the web calculator [hasTimers()] tells the truth: through
    every history the dissolution timer is pending exactly when
    [hasTimers()] answers [true].  It is then due at [manifestedAt]
    plus the delay the window arms for [maxLifetime], which is
    [maxLifetime] itself when [0 <= maxLifetime <= 2147483647], and 0
    when [2147483647 < maxLifetime < 4294967296] or [maxLifetime] is
    negative and above [-2147483649]. *)
Theorem web_hasTimers_is_accurate
        (env : Ambient) (i : CalculatorIntent) (frozen_by_caller : bool)
        (tracker : DOMCleanupTracker) (p : Page) (options : option ManifestOptions)
        (cs : list call) :
  let w := web_run cs (web_manifestCalculator env i frozen_by_caller tracker p options) in
  let m := maxLifetime (core w) in
  dissolutionTimer (core w)
  = (if web_hasTimers w
     then Some (manifestedAt (core w) + window_timer_delay m)%Z
     else None) /\
  ((0 <= m <= 2147483647)%Z -> window_timer_delay m = m) /\
  ((2147483647 < m < 4294967296)%Z -> window_timer_delay m = 0%Z) /\
  ((-2147483649 < m < 0)%Z -> window_timer_delay m = 0%Z).
Proof.
  intros w m.
  pose proof (web_steady_run cs
                (web_steady_manifest env i frozen_by_caller tracker p options)) as Hst.
  fold w in Hst. destruct Hst as [HmA HmL Hti Hck].
  split; [|split; [|split]].
  - rewrite Hti, HmA. unfold m. rewrite HmL. unfold web_hasTimers.
    destruct (active (core w)); reflexivity.
  - intros Hm. unfold window_timer_delay, ToInt32.
    change (2 ^ 31)%Z with 2147483648%Z. change (2 ^ 32)%Z with 4294967296%Z.
    rewrite Z.mod_small by lia. lia.
  - intros Hm. unfold window_timer_delay, ToInt32.
    change (2 ^ 31)%Z with 2147483648%Z. change (2 ^ 32)%Z with 4294967296%Z.
    replace (m + 2147483648)%Z with (m - 2147483648 + 1 * 4294967296)%Z by lia.
    rewrite Z.mod_add by lia. rewrite Z.mod_small by lia. lia.
  - intros Hm. unfold window_timer_delay, ToInt32.
    change (2 ^ 31)%Z with 2147483648%Z. change (2 ^ 32)%Z with 4294967296%Z.
    rewrite Z.mod_small by lia. lia.
Qed.

End Calculator.

(* ===================================================================== *)
(** * Examples on an engine with a correctly rounded [Math.pow]           *)
(* ===================================================================== *)

#[local] Existing Instance nearest_engine.

(** A rejected read does not reach the caller as a rejection. *)
Lemma broker_failure_not_propagated :
  active (manifestCalculator sample_env sample_intent None) = true /\
  read failing_broker preferences_path = Thrown (Error "broker offline") /\
  fst (execute failing_broker (manifestCalculator sample_env sample_intent None))
  <> Thrown (Error "broker offline").
Proof. repeat split. cbv. discriminate. Qed.

Lemma broker_failure_is_returned_witness :
  execute failing_broker (manifestCalculator sample_env sample_intent None) =
    (Returned {| value := None;
                 error := Some "broker offline"%string;
                 result_operation := Some "add"%string;
                 completedAt := 1000 |},
     set_read_log [preferences_path]
       (manifestCalculator sample_env sample_intent None)).
Proof.
  exact (broker_failure_is_returned failing_broker
           (manifestCalculator sample_env sample_intent None)
           (e := Error "broker offline") eq_refl eq_refl).
Defined.

(** Beyond 22 digits the result depends on the engine's [Math.pow]:
    [3 / 7] at 26 digits. *)
Lemma division_depends_on_the_engine :
  @performDivision engine_below_at_26 [3%float; 7%float]
    {| precision := Some 26%N; roundingMode := None |}
  = Returned 0.4285714285714285%float /\
  @performDivision nearest_engine [3%float; 7%float]
    {| precision := Some 26%N; roundingMode := None |}
  = Returned 0.42857142857142855%float.
Proof. split; vm_compute; reflexivity. Qed.

(** On a negative tie the code and the rounding named in the
    specification part: [-5 / 2 = -2.5] at zero digits is [-2] in the
    code and [-3] half away from zero; [-1 / 8 = -0.125] at two digits
    is [-0.12] in the code and [-0.13] half away from zero. *)
Lemma division_rounds_ties_upward :
  performDivision [(-5)%float; 2%float]
    {| precision := Some 0%N; roundingMode := None |} = Returned (-2)%float /\
  divide_as_specified (-5)%float [2%float]
    {| precision := Some 0%N; roundingMode := None |} = (-3)%float /\
  performDivision [(-1)%float; 8%float]
    {| precision := Some 2%N; roundingMode := None |} = Returned (-0.12)%float /\
  divide_as_specified (-1)%float [8%float]
    {| precision := Some 2%N; roundingMode := None |} = (-0.13)%float /\
  performDivision [(-5)%float; 2%float]
    {| precision := Some 0%N; roundingMode := None |}
  <> Returned (divide_as_specified (-5)%float [2%float]
                 {| precision := Some 0%N; roundingMode := None |}).
Proof.
  repeat split; try (vm_compute; reflexivity).
  vm_compute. intros H. discriminate H.
Qed.

Lemma execute_own_operation_witness :
  execute (broker_with_precision 2)
          (manifestCalculator sample_env
             {| operation := "multiply"; operands := [7%float; 6%float] |} None)
  = (Returned {| value := Some (VNumber 42%float); error := None;
                 result_operation := Some "multiply"%string; completedAt := 1000 |},
     set_sensitiveData
       {| sd_operands := Some [7%float; 6%float];
          sd_result := Some (VNumber 42%float);
          sd_userPreferences := Some {| precision := Some 2%N; roundingMode := None |} |}
       (set_read_log [preferences_path]
          (manifestCalculator sample_env
             {| operation := "multiply"; operands := [7%float; 6%float] |} None))).
Proof.
  exact (execute_own_operation (broker_with_precision 2)
           (manifestCalculator sample_env
              {| operation := "multiply"; operands := [7%float; 6%float] |} None)
           (p := Some {| precision := Some 2%N; roundingMode := None |})
           (name := "multiply") (f := performMultiplication)
           (xs := [7%float; 6%float])
           eq_refl eq_refl eq_refl eq_refl eq_refl).
Defined.

Lemma execute_on_empty_operands_witness :
  fst (execute empty_broker
         (manifestCalculator sample_env {| operation := "subtract"; operands := [] |} None))
  = Returned {| value := None;
                error := Some "Reduce of empty array with no initial value"%string;
                result_operation := Some "subtract"%string; completedAt := 1000 |}.
Proof.
  exact (proj1 (proj2 (proj2
           (execute_on_empty_operands empty_broker
              (manifestCalculator sample_env
                 {| operation := "subtract"; operands := [] |} None)
              (p := None) eq_refl eq_refl eq_refl))) eq_refl).
Defined.

Lemma execute_uses_written_preferences_witness :
  fst (execute (as_UserOwnedState
                  (broker_run release_mock [BrokerTimer]
                     (broker_write preferences_path
                        {| precision := Some 2%N; roundingMode := None |}
                        (new_broker CalculatorPreferences))))
         (manifestCalculator sample_env
            {| operation := "divide"; operands := [10%float; 3%float] |} None))
  = Returned {| value := Some (VNumber 3.33%float); error := None;
                result_operation := Some "divide"%string; completedAt := 1000 |}.
Proof.
  exact (proj1 (execute_uses_written_preferences
                  (new_broker CalculatorPreferences)
                  {| precision := Some 2%N; roundingMode := None |}
                  [BrokerTimer]
                  (manifestCalculator sample_env
                     {| operation := "divide"; operands := [10%float; 3%float] |} None)
                  (name := "divide") (f := performDivision)
                  (xs := [10%float; 3%float])
                  eq_refl eq_refl eq_refl eq_refl eq_refl)).
Defined.
